(** * A minimal distributed file store: master, datanode and client

    Shallow embedding of [src/master/master.py], [src/datanode/datanode.py]
    and [src/client/client.py], and the properties of the specification
    that are stated over them.

    Conventions of the embedding.
    - Python [int] is [Z]; [//] and [%] are [Z.div] and [Z.modulo] (both
      round towards minus infinity for a positive divisor, as Python does).
    - A Python [dict] keeps insertion order, and the placement policy reads
      that order ([list(datanodes.keys())]), so a dict is an association
      list with unique keys: [dict_set] overwrites in place or appends.
    - A clock reading ([time.time()]) is an integer number of microseconds;
      every call of [time.time()] in a handler is an explicit argument.
    - A handler is a function from the process state to a result and the
      next state.  A result is either a returned value or a raised
      exception ([Py]); Flask turns an unhandled exception into HTTP 500.
    - [json.dump] and [json.load] belong to the Python library: they are
      section variables [dumps] and [loads]; so are [int] on a string and
      the way a file name travels in the path of a URL.
    - A Python [float] is an IEEE 754 double.  Where the rounding of a
      division decides what a handler does, the handler is also given on
      doubles themselves.
    - The directory of a datanode is a finite map from file name to bytes. *)

From Stdlib Require Import ZArith QArith.QArith_base Lia.
From Stdlib Require Import Strings.Ascii Strings.Byte.
From Stdlib Require Floats.PrimFloat.
From stdpp Require Import base option list gmap strings pretty sorting.

Open Scope string_scope.
Open Scope Z_scope.

(** ** Python values *)

Module Python.

Inductive exn : Set :=
  | ZeroDivisionError
  | TypeError
  | KeyError
  | IndexError
  | JSONDecodeError.

Inductive Py (A : Type) : Type :=
  | Ret (a : A)
  | Raise (e : exn).
Arguments Ret {A} a.
Arguments Raise {A} e.

#[export] Instance Py_ret : MRet Py := @Ret.
#[export] Instance Py_bind : MBind Py := λ A B f m,
  match m with
  | Ret a => f a
  | Raise e => Raise e
  end.

(** [x[k]] on an optional lookup result. *)
Definition or_raise {A} (e : exn) (o : option A) : Py A :=
  match o with
  | Some a => Ret a
  | None => Raise e
  end.

(** The loop [for x in xs: ys.append(f(x))] where [f] may raise. *)
Fixpoint for_each {A B} (f : A → Py B) (xs : list A) : Py (list B) :=
  match xs with
  | [] => Ret []
  | x :: xs' => y ← f x; ys ← for_each f xs'; Ret (y :: ys)
  end.

(** [range(n)] *)
Definition range (n : Z) : list Z := Z.of_nat <$> seq 0 (Z.to_nat n).

(** Insertion-ordered dictionaries with string keys. *)
Definition dict (V : Type) : Type := list (string * V).

Fixpoint dict_get {V} (k : string) (d : dict V) : option V :=
  match d with
  | [] => None
  | (k', v) :: d' => if decide (k = k') then Some v else dict_get k d'
  end.

Fixpoint dict_set {V} (k : string) (v : V) (d : dict V) : dict V :=
  match d with
  | [] => [(k, v)]
  | (k', v') :: d' =>
      if decide (k = k') then (k, v) :: d' else (k', v') :: dict_set k v d'
  end.

Definition dict_keys {V} (d : dict V) : list string := fst <$> d.

Definition dict_in {V} (k : string) (d : dict V) : bool :=
  bool_decide (is_Some (dict_get k d)).

(** Truthiness of the request fields the handlers test with [not]. *)
Definition truthy_str (o : option string) : bool :=
  match o with
  | Some s => negb (bool_decide (s = ""))
  | None => false
  end.

Definition truthy_int (o : option Z) : bool :=
  match o with
  | Some z => negb (z =? 0)
  | None => false
  end.

(** [str(x)] inside an f-string, for a field that may be [None]. *)
Definition fmt_str (o : option string) : string :=
  match o with
  | Some s => s
  | None => "None"
  end.

(** JSON values as [request.json] delivers them, and their truthiness.  A
    number is held by its exact value, and [truediv] below divides exactly:
    this is Python's arithmetic on an [int], and on a [float] up to the
    rounding of each division, so away from the two ends of the range of a
    double (a quotient that rounds to zero or is too large to hold).  At
    those ends the handler is read on doubles, [float_truediv]. *)
#[warnings="-register-all"] Inductive json : Type :=
  | JNull
  | JBool (b : bool)
  | JNum (q : Q)
  | JStr (s : string)
  | JArr (l : list json)
  | JObj (l : list (string * json)).

Definition truthy (v : json) : bool :=
  match v with
  | JNull => false
  | JBool b => b
  | JNum q => negb (Qeq_bool q 0)
  | JStr s => negb (bool_decide (s = ""))
  | JArr l => negb (bool_decide (l = []))
  | JObj l => negb (bool_decide (l = []))
  end.

(** [data.get(k)]: [None] when the key is missing. *)
Definition json_get (k : string) (data : dict json) : json :=
  default JNull (dict_get k data).

(** The operand of an arithmetic operator: [bool] is a subclass of [int]. *)
Definition as_number (v : json) : Py Q :=
  match v with
  | JNum q => Ret q
  | JBool b => Ret (if b then 1%Q else 0%Q)
  | _ => Raise TypeError
  end.

(** [a / b] on numbers. *)
Definition truediv (a b : Q) : Py Q :=
  if Qeq_bool b 0 then Raise ZeroDivisionError else Ret (a / b)%Q.

Section Doubles.

Import PrimFloat.



End Doubles.

End Python.
Import Python.

(** A clock reading, in microseconds since the epoch. *)
Definition Time : Type := Z.

(** [int(t * 1000)] for a reading [t] of [time.time()]. *)
Definition millis (t : Time) : Z := t / 1000.

Abbreviation bytes := (list byte) (only parsing).

(** ** The coordination service ([src/master/master.py])

    The fields of the bodies of [/register], [/heartbeat] and [/file] have
    the types of the wire contract, [None] standing for an absent field;
    the body of [/stats] is kept as a JSON object, since what the handler
    does with it first is a test of truthiness. *)

Module Master.

(** The record stored for a datanode. *)
Record Node : Type := mkNode {
  url : string;
  registered_at : Time;
  last_heartbeat : Time
}.

(** One entry of a chunk plan. *)
Record Chunk : Type := mkChunk {
  chunk_id : string;
  node_id : string;
  node_url : string;
  start : Z;
  size : Z
}.

Record FileRecord : Type := mkFile {
  file_id : string;
  file_size : Z;
  created_at : Time;
  chunks : list Chunk
}.

(** The value bound to the global [metadata]: what the snapshot holds. *)
Record Metadata : Type := mkMetadata {
  files : dict FileRecord;
  md_datanodes : dict Node;
  chunk_size : Z
}.

(** The process state: the globals [metadata] and [datanodes], and the
    text of [METADATA_FILE] ([None] while the file does not exist). *)
Record State : Type := mkState {
  metadata : Metadata;
  datanodes : dict Node;
  metadata_file : option string
}.

Inductive Body : Type :=
  | Status (message : string)
  | Registered (chunk_size : Z)
  | Error (message : string)
  | Created (file_id : string) (chunks : list Chunk) (chunk_size : Z)
  | FileInfo (info : FileRecord)
  | FileList (listing : dict (Z * Time)).

(** [jsonify(body), code] *)
Definition Response : Type := Body * Z.

Definition set_files (fs : dict FileRecord) (md : Metadata) : Metadata :=
  mkMetadata fs (md_datanodes md) (chunk_size md).

Definition set_md_datanodes (ns : dict Node) (md : Metadata) : Metadata :=
  mkMetadata (files md) ns (chunk_size md).

Definition set_last_heartbeat (t : Time) (n : Node) : Node :=
  mkNode (url n) (registered_at n) t.

Definition is_node_registred (node_id : option string) (data_nodes : dict Node)
    : bool * string :=
  let data_node := node_id ≫= λ k, dict_get k data_nodes in
  match data_node with
  | Some _ => (true, "Node with id " +:+ fmt_str node_id +:+ " is registered!")
  | None => (false, "Node with id " +:+ fmt_str node_id +:+ " is not registered!")
  end.

(** The initial value of [metadata] when no snapshot exists. *)
Definition default_metadata : Metadata :=
  mkMetadata [] [] (4 * 1024 * 1024).

(** [POST /stats].  The throughput is only logged, so the handler returns
    the response or the exception the arithmetic raises. *)
Definition throughput (bytes_processed duration_ms : json) : Py Q :=
  b ← as_number bytes_processed;
  kib ← truediv b 1024;
  mib ← truediv kib 1024;
  d ← as_number duration_ms;
  seconds ← truediv d 1000;
  truediv mib seconds.

Definition record_stats (data : dict json) : Py Response :=
  let node_id := json_get "node_id" data in
  let operation := json_get "operation" data in
  let bytes_processed := json_get "bytes" data in
  let duration_ms := json_get "duration_ms" data in
  if negb (truthy node_id) || negb (truthy operation)
     || negb (truthy bytes_processed) || negb (truthy duration_ms) then
    Ret (Error "Missing required fields", 400)
  else
    _ ← throughput bytes_processed duration_ms;
    Ret (Status "recorded", 200).

Section Doubles.

Import PrimFloat.



End Doubles.

Section WithJson.

Variable dumps : Metadata → string.
Variable loads : string → option Metadata.

(** Module initialisation: lines 33 to 46. *)
Definition startup (file : option string) : Py State :=
  match file with
  | Some text =>
      md ← or_raise JSONDecodeError (loads text);
      Ret (mkState md [] (Some text))
  | None =>
      Ret (mkState default_metadata [] (Some (dumps default_metadata)))
  end.

(** What [METADATA_FILE] holds when the process stops at a point of
    [save_metadata]: [open(..., 'w')] truncates the file in place, the
    encoder's output then reaches it front to back, and the file is
    complete once the [with] block has closed it. *)
Inductive SavePoint : Set :=
  | BeforeOpen
  | Opened
  | Flushed (n : nat)
  | Closed.

Definition file_at (p : SavePoint) (md : Metadata) (old : option string)
    : option string :=
  match p with
  | BeforeOpen => old
  | Opened => Some ""
  | Flushed n => Some (String.substring 0 n (dumps md))
  | Closed => Some (dumps md)
  end.

(** [save_metadata()] run to its end. *)
Definition save_metadata (st : State) : State :=
  mkState (metadata st) (datanodes st)
          (file_at Closed (metadata st) (metadata_file st)).

(** [POST /register]; [t1] to [t4] are the four clock readings. *)
Definition register_datanode (t1 t2 t3 t4 : Time)
    (node_id node_url : option string) (st : State) : Py Response * State :=
  let '(node_exists, message) := is_node_registred node_id (datanodes st) in
  if node_exists then (Ret (Status message, 200), st)
  else if negb (truthy_str node_id) || negb (truthy_str node_url) then
    (Ret (Error "Missing node_id or node_url", 400), st)
  else
    let id := default "" node_id in
    let u := default "" node_url in
    let st1 := mkState (metadata st)
                 (dict_set id (mkNode u t1 t2) (datanodes st))
                 (metadata_file st) in
    let st2 := mkState
                 (set_md_datanodes
                    (dict_set id (mkNode u t3 t4) (md_datanodes (metadata st1)))
                    (metadata st1))
                 (datanodes st1) (metadata_file st1) in
    let st3 := save_metadata st2 in
    (Ret (Registered (chunk_size (metadata st3)), 200), st3).

(** [POST /heartbeat] *)
Definition heartbeat (t1 t2 : Time) (node_id : option string) (st : State)
    : Py Response * State :=
  if negb (truthy_str node_id)
     || negb (dict_in (default "" node_id) (datanodes st)) then
    (Ret (Error "Unknown node_id", 400), st)
  else
    let id := default "" node_id in
    match dict_get id (datanodes st) with
    | None => (Raise KeyError, st)
    | Some n =>
        let st1 := mkState (metadata st)
                     (dict_set id (set_last_heartbeat t1 n) (datanodes st))
                     (metadata_file st) in
        match dict_get id (md_datanodes (metadata st1)) with
        | None => (Raise KeyError, st1)
        | Some m =>
            let st2 := mkState
                         (set_md_datanodes
                            (dict_set id (set_last_heartbeat t2 m)
                               (md_datanodes (metadata st1)))
                            (metadata st1))
                         (datanodes st1) (metadata_file st1) in
            (Ret (Status "alive", 200), save_metadata st2)
        end
    end.

(** The body of the placement loop for ordinal [i]. *)
Definition plan_chunk (active_nodes : list string) (nodes : dict Node)
    (file_id : string) (chunk_size filesize : Z) (i : Z) : Py Chunk :=
  node_id ← or_raise IndexError
    (active_nodes !! Z.to_nat (i `mod` Z.of_nat (length active_nodes)));
  node ← or_raise KeyError (dict_get node_id nodes);
  Ret (mkChunk (file_id +:+ "_" +:+ pretty i) node_id (url node)
         (i * chunk_size) (Z.min chunk_size (filesize - i * chunk_size))).

(** [POST /file]; [t1] and [t2] are the two clock readings. *)
Definition create_file (t1 t2 : Time)
    (filename : option string) (filesize : option Z) (st : State)
    : Py Response * State :=
  if negb (truthy_str filename) || negb (truthy_int filesize) then
    (Ret (Error "Missing filename or filesize", 400), st)
  else
    let name := default "" filename in
    let fsz := default 0 filesize in
    let chunk_size := chunk_size (metadata st) in
    if chunk_size =? 0 then (Raise ZeroDivisionError, st)
    else
      let num_chunks := (fsz + chunk_size - 1) `div` chunk_size in
      let active_nodes := dict_keys (datanodes st) in
      if bool_decide (active_nodes = []) then
        (Ret (Error "No active datanodes available", 503), st)
      else
        let file_id := pretty (millis t1) in
        match for_each
                (plan_chunk active_nodes (datanodes st) file_id chunk_size fsz)
                (range num_chunks) with
        | Raise e => (Raise e, st)
        | Ret chunks =>
            let st1 := mkState
                         (set_files
                            (dict_set name (mkFile file_id fsz t2 chunks)
                               (files (metadata st)))
                            (metadata st))
                         (datanodes st) (metadata_file st) in
            (Ret (Created file_id chunks chunk_size, 200), save_metadata st1)
        end.

(** The state a successful [create_file] leaves: the record stored under
    the file name and the snapshot saved. *)
Definition committed (t1 t2 : Time) (name : string) (fsz : Z)
    (plan : list Chunk) (st : State) : State :=
  save_metadata
    (mkState
       (set_files
          (dict_set name (mkFile (pretty (millis t1)) fsz t2 plan)
             (files (metadata st)))
          (metadata st))
       (datanodes st) (metadata_file st)).

(** [GET /file/<filename>] *)
Definition get_file_info (filename : string) (st : State) : Response :=
  match dict_get filename (files (metadata st)) with
  | None => (Error "File not found", 404)
  | Some file_info => (FileInfo file_info, 200)
  end.

(** [GET /files] *)
Definition list_files (st : State) : Response :=
  (FileList (prod_map id (λ f, (file_size f, created_at f))
               <$> files (metadata st)), 200).

(** The requests the service receives, and a run of the service as the
    list of the requests it has handled. *)
Inductive Request : Type :=
  | PostRegister (t1 t2 t3 t4 : Time) (node_id node_url : option string)
  | PostHeartbeat (t1 t2 : Time) (node_id : option string)
  | PostFile (t1 t2 : Time) (filename : option string) (filesize : option Z)
  | GetFile (filename : string)
  | GetFiles
  | PostStats (data : dict json).

Definition handle (rq : Request) (st : State) : Py Response * State :=
  match rq with
  | PostRegister t1 t2 t3 t4 node_id node_url =>
      register_datanode t1 t2 t3 t4 node_id node_url st
  | PostHeartbeat t1 t2 node_id => heartbeat t1 t2 node_id st
  | PostFile t1 t2 filename filesize => create_file t1 t2 filename filesize st
  | GetFile filename => (Ret (get_file_info filename st), st)
  | GetFiles => (Ret (list_files st), st)
  | PostStats data => (record_stats data, st)
  end.

Definition run (st : State) (history : list Request) : State :=
  foldl (λ st rq, (handle rq st).2) st history.

End WithJson.

(** The properties of a chunk plan. *)

(** [tiles lo hi plan]: the ranges [start, start + size) of the plan, in
    plan order, are non-empty and laid end to end from [lo] to [hi]. *)
Fixpoint tiles (lo hi : Z) (plan : list Chunk) : Prop :=
  match plan with
  | [] => lo = hi
  | c :: plan' => start c = lo ∧ 0 < size c ∧ tiles (lo + size c) hi plan'
  end.

Definition total_size (plan : list Chunk) : Z :=
  foldr (λ c acc, size c + acc) 0 plan.

(** [placed nodes file_id cs fsz i c]: [c] is the entry the placement loop
    appends for ordinal [i]. *)
Definition placed (nodes : dict Node) (file_id : string) (cs fsz : Z)
    (i : Z) (c : Chunk) : Prop :=
  chunk_id c = file_id +:+ "_" +:+ pretty i
  ∧ dict_keys nodes !! Z.to_nat (i `mod` Z.of_nat (length nodes))
    = Some (node_id c)
  ∧ url <$> dict_get (node_id c) nodes = Some (node_url c)
  ∧ start c = i * cs
  ∧ size c = Z.min cs (fsz - i * cs).

(** Every plan of the files mapping lists its chunks by ascending offset. *)
Definition plans_ascending (md : Metadata) : Prop :=
  ∀ name f, dict_get name (files md) = Some f →
    Sorted Z.le (start <$> chunks f).

(** The number of chunks of a plan assigned to a node. *)
Definition assigned (n : string) (plan : list Chunk) : nat :=
  length (filter (λ c, node_id c = n) plan).

(** The invariants of a run. *)

(** Every node of the registry has a record in the metadata, under the
    same address. *)
Definition registry_in_metadata (st : State) : Prop :=
  ∀ id n, dict_get id (datanodes st) = Some n →
    ∃ m, dict_get id (md_datanodes (metadata st)) = Some m ∧ url m = url n.

(** [METADATA_FILE] holds the text of the current metadata. *)
Definition snapshot_in_sync (dumps : Metadata → string) (st : State) : Prop :=
  metadata_file st = Some (dumps (metadata st)).

(** The status code Flask sends for the result of a handler. *)
Definition status_code (r : Py Response) : Z :=
  match r with
  | Ret (_, code) => code
  | Raise _ => 500
  end.

(** A stored record is well planned: its size is not 0, its plan has
    pairwise distinct chunk ids, is empty for a negative size, and for a
    positive size lays the chunks end to end from 0 to the size. *)
Definition well_planned (f : FileRecord) : Prop :=
  file_size f ≠ 0
  ∧ NoDup (chunk_id <$> chunks f)
  ∧ (file_size f < 0 → chunks f = [])
  ∧ (0 < file_size f → tiles 0 (file_size f) (chunks f)).

(** [has_underscore s]: the separator of chunk ids occurs in [s]. *)
Fixpoint has_underscore (s : string) : Prop :=
  match s with
  | EmptyString => False
  | String a s' => a = "_"%char ∨ has_underscore s'
  end.

End Master.

(** ** The storage node ([src/datanode/datanode.py]) *)

Module Datanode.

(** One entry of [metrics['reads']] or [metrics['writes']]. *)
Record Sample : Type := mkSample {
  s_chunk_id : string;
  s_size : Z;
  s_duration_ms : Q;
  s_throughput : Q;
  s_timestamp : Time
}.

(** The body [report_metric] posts to the master's [/stats]. *)
Record Report : Type := mkReport {
  r_node_id : string;
  r_operation : string;
  r_bytes : Z;
  r_duration_ms : Q
}.

(** The files of [DATA_DIR], the global [metrics], and the reports sent. *)
Record State : Type := mkState {
  data_dir : gmap string bytes;
  reads : list Sample;
  writes : list Sample;
  reported : list Report
}.

Inductive Body : Type :=
  | Stored (chunk_id : string) (size : Z) (node_id : string)
  | Error (message : string)
  | Octets (content : bytes).

Definition Response : Type := Body * Z.

(** [(end_time - start_time) * 1000] *)
Definition duration_ms (start_time end_time : Time) : Q :=
  (inject_Z (end_time - start_time) / 1000)%Q.

(** [(chunk_size / 1024 / 1024) / (duration_ms / 1000)] *)
Definition throughput (chunk_size : Z) (duration : Q) : Py Q :=
  kib ← truediv (inject_Z chunk_size) 1024;
  mib ← truediv kib 1024;
  seconds ← truediv duration 1000;
  truediv mib seconds.

Section WithNodeId.

Variable NODE_ID : string.

(** [PUT /chunk/<chunk_id>]; [t0], [t1], [t2] are the clock readings. *)
Definition store_chunk (t0 t1 t2 : Time) (chunk_id : string)
    (chunk_data : bytes) (st : State) : Py Response * State :=
  let chunk_size := Z.of_nat (length chunk_data) in
  let st1 := mkState (<[chunk_id := chunk_data]> (data_dir st))
               (reads st) (writes st) (reported st) in
  let d := duration_ms t0 t1 in
  match throughput chunk_size d with
  | Raise e => (Raise e, st1)
  | Ret th =>
      (Ret (Stored chunk_id chunk_size NODE_ID, 200),
       mkState (data_dir st1) (reads st1)
         (writes st1 ++ [mkSample chunk_id chunk_size d th t2])
         (reported st1 ++ [mkReport NODE_ID "write" chunk_size d]))
  end.

(** [GET /chunk/<chunk_id>] *)
Definition retrieve_chunk (t0 t1 t2 : Time) (chunk_id : string) (st : State)
    : Py Response * State :=
  match data_dir st !! chunk_id with
  | None => (Ret (Error "Chunk not found", 404), st)
  | Some chunk_data =>
      let d := duration_ms t0 t1 in
      let chunk_size := Z.of_nat (length chunk_data) in
      match throughput chunk_size d with
      | Raise e => (Raise e, st)
      | Ret th =>
          (Ret (Octets chunk_data, 200),
           mkState (data_dir st)
             (reads st ++ [mkSample chunk_id chunk_size d th t2])
             (writes st)
             (reported st ++ [mkReport NODE_ID "read" chunk_size d]))
      end
  end.

(** The requests that reach a node, and a node's life as the list of the
    requests it has served. *)
Inductive Request : Type :=
  | Put (t0 t1 t2 : Time) (chunk_id : string) (chunk_data : bytes)
  | Get (t0 t1 t2 : Time) (chunk_id : string).

Definition serve (st : State) (rq : Request) : State :=
  match rq with
  | Put t0 t1 t2 c data => (store_chunk t0 t1 t2 c data st).2
  | Get t0 t1 t2 c => (retrieve_chunk t0 t1 t2 c st).2
  end.

Definition serve_all (st : State) (history : list Request) : State :=
  foldl serve st history.

End WithNodeId.

(** A node whose [DATA_DIR] has just been created. *)
Definition fresh : State := mkState ∅ [] [] [].

(** The bytes of the last [Put] of [c] in a history, if there is one. *)
Fixpoint last_put (c : string) (history : list Request) : option bytes :=
  match history with
  | [] => None
  | rq :: rest =>
      match last_put c rest with
      | Some data => Some data
      | None =>
          match rq with
          | Put _ _ _ c' data => if decide (c = c') then Some data else None
          | Get _ _ _ _ => None
          end
      end
  end.

(** [GET /metrics] *)
Definition get_metrics (st : State) : list Sample * list Sample * Z :=
  (reads st, writes st, 200).

(** The JSON body [report_metric] posts for a report. *)
Definition report_body (r : Report) : dict json :=
  [("node_id", JStr (r_node_id r));
   ("operation", JStr (r_operation r));
   ("bytes", JNum (inject_Z (r_bytes r)));
   ("duration_ms", JNum (r_duration_ms r))].

(** The status code Flask sends for the result of a handler. *)
Definition status_code (r : Py Response) : Z :=
  match r with
  | Ret (_, code) => code
  | Raise _ => 500
  end.

(** The stores of a history that are answered 200: those whose two clock
    readings differ. *)
Definition answered_put (rq : Request) : bool :=
  match rq with
  | Put t0 t1 _ _ _ => negb (t0 =? t1)
  | Get _ _ _ _ => false
  end.

End Datanode.

(** ** The client's download path ([src/client/client.py]) *)

Module Client.

Import Master.

(** What [download_chunk] returns for a retrieved chunk. *)
Record Downloaded : Type := mkDownloaded {
  d_chunk_id : string;
  d_start : Z;
  d_data : bytes
}.

(** [requests.get(url)] against the datanodes: the status code and the
    body, or [None] when the call raises. *)
Definition Network : Type := string → string → option (Z * bytes).

Definition download_chunk (net : Network) (chunk : Chunk) : option Downloaded :=
  match net (node_url chunk) (chunk_id chunk) with
  | Some (status_code, content) =>
      if status_code =? 200 then
        Some (mkDownloaded (chunk_id chunk) (start chunk) content)
      else None
  | None => None
  end.

(** [ThreadPoolExecutor.map]: one future per submitted task, in the order
    of the tasks; the workers resolve the futures in the order
    [completion]; the results are then read future by future.  The result
    is [None] when a future is never resolved. *)
Definition resolve {A B} (fn : A → B) (tasks : list A)
    (futures : list (option B)) (i : nat) : list (option B) :=
  match tasks !! i with
  | Some a => <[i := Some (fn a)]> futures
  | None => futures
  end.

Definition run_workers {A B} (fn : A → B) (tasks : list A)
    (completion : list nat) : list (option B) :=
  foldl (resolve fn tasks) (replicate (length tasks) None) completion.

Definition executor_map {A B} (fn : A → B) (tasks : list A)
    (completion : list nat) : option (list B) :=
  mapM id (run_workers fn tasks completion).

(** The outcome of [download]: nothing written (the master did not return
    the file), or the bytes written to [output_path] and whether the
    incomplete-file warning was printed. *)
Inductive Outcome : Type :=
  | NotWritten
  | Written (warned : bool) (content : bytes).

Definition download (net : Network) (response : Master.Response)
    (completion : list nat) : option Outcome :=
  match response with
  | (FileInfo file_info, 200) =>
      let chunks_info := chunks file_info in
      results ← executor_map (download_chunk net) chunks_info completion;
      let downloaded_chunks := omap id results in
      let warned :=
        negb (bool_decide (length downloaded_chunks = length chunks_info)) in
      Some (Written warned (concat (d_data <$> downloaded_chunks)))
  | _ => Some NotWritten
  end.

(** The order the merge step is specified to use: the stable sort by
    [start] of the line the download path leaves disabled,
    [downloaded_chunks.sort(key=lambda c: c['start'])]. *)
Fixpoint insert_by_start (c : Downloaded) (l : list Downloaded)
    : list Downloaded :=
  match l with
  | [] => [c]
  | d :: l' =>
      if d_start c <=? d_start d then c :: l else d :: insert_by_start c l'
  end.

Definition sort_by_start (l : list Downloaded) : list Downloaded :=
  foldr insert_by_start [] l.

(** What [split_file] builds for a plan entry. *)
Record Piece : Type := mkPiece {
  p_chunk_id : string;
  p_node_url : string;
  p_data : bytes
}.

(** [f.seek(start); f.read(size)] on a file opened ['rb']: a negative
    offset raises ([None]), an offset past the end reads nothing, and a
    negative size reads to the end of the file. *)
Definition read_at (file : bytes) (start size : Z) : option bytes :=
  if start <? 0 then None
  else
    let rest := drop (Z.to_nat start) file in
    Some (if size <? 0 then rest else take (Z.to_nat size) rest).

(** [split_file]; [None] when a read raises. *)
Definition split_file (file : bytes) (chunks_info : list Chunk)
    : option (list Piece) :=
  mapM (λ chunk,
          data ← read_at file (start chunk) (size chunk);
          Some (mkPiece (chunk_id chunk) (node_url chunk) data))
       chunks_info.

(** The loop of [info] that counts the chunks of each node. *)
Definition count_chunk (node_distribution : dict Z) (chunk : Chunk) : dict Z :=
  let d :=
    if dict_in (node_id chunk) node_distribution then node_distribution
    else dict_set (node_id chunk) 0 node_distribution in
  dict_set (node_id chunk) (default 0 (dict_get (node_id chunk) d) + 1) d.

Definition node_distribution (chunks_info : list Chunk) : dict Z :=
  foldl count_chunk [] chunks_info.

End Client.

(** ** The parts together

    The master, the datanodes reachable at their addresses, and the calls
    of the client and of a datanode that cross the network.  A request is
    served in one step; a call to an address where no node listens raises
    in [requests], which every caller catches. *)

Module Cluster.

Import Master Client.

(** A running datanode: its [NODE_ID] and its state. *)
Record Node : Type := mkNode {
  node_name : string;
  node_state : Datanode.State
}.

Record State : Type := mkState {
  master : Master.State;
  nodes : gmap string Node
}.

Section WithJson.

Variable dumps : Metadata → string.

(** Python's [int] on a string; [None] when it raises [ValueError]. *)
Variable int : string → option Z.

(** The globals [HOST_PORT] and [NODE_URL] of a datanode, which the module
    computes from [NODE_ID] when it is loaded; [None] when [int(NODE_ID)]
    raises, which ends the process there. *)
Definition HOST_PORT (NODE_ID : string) : option Z :=
  k ← int NODE_ID; Some (8000 + k).

Definition NODE_URL (NODE_ID : string) : option string :=
  port ← HOST_PORT NODE_ID;
  Some ("http://datanode" +:+ NODE_ID +:+ ":" +:+ pretty port).

(** [register_with_master] of the datanode started with [NODE_ID];
    [master_up] tells whether the [POST] reaches the master.  [None]: the
    module did not load, and the function is never called. *)
Definition register_with_master (t1 t2 t3 t4 : Time)
    (NODE_ID : string) (master_up : bool)
    (m : Master.State) : option (bool * Master.State) :=
  node_url ← NODE_URL NODE_ID;
  if master_up then
    let '(response, m') :=
      register_datanode dumps t1 t2 t3 t4 (Some NODE_ID) (Some node_url) m in
    Some (bool_decide (status_code response = 200), m')
  else Some (false, m).

(** [upload_chunk]: the [PUT] at the node of the piece, served by
    [store_chunk] with the clock readings [clock]. *)
Definition upload_chunk (clock : Time * Time * Time) (piece : Piece)
    (ns : gmap string Node) : bool * gmap string Node :=
  match ns !! p_node_url piece with
  | None => (false, ns)
  | Some nd =>
      let '(t0, t1, t2) := clock in
      let '(response, s') :=
        Datanode.store_chunk (node_name nd) t0 t1 t2
          (p_chunk_id piece) (p_data piece) (node_state nd) in
      (bool_decide (Datanode.status_code response = 200),
       <[p_node_url piece := mkNode (node_name nd) s']> ns)
  end.

(** [ThreadPoolExecutor.map] for tasks that change the nodes: the workers
    finish in the order [completion], each task acts on the nodes as its
    predecessors left them, and the results are read in task order. *)
Definition finish (clock : nat → Time * Time * Time) (tasks : list Piece)
    (acc : list (option bool) * gmap string Node) (i : nat)
    : list (option bool) * gmap string Node :=
  match tasks !! i with
  | Some piece =>
      let '(ok, ns) := upload_chunk (clock i) piece acc.2 in
      (<[i := Some ok]> acc.1, ns)
  | None => acc
  end.

Definition upload_all (clock : nat → Time * Time * Time) (tasks : list Piece)
    (completion : list nat) (ns : gmap string Node)
    : option (list bool) * gmap string Node :=
  let '(futures, ns') :=
    foldl (finish clock tasks) (replicate (length tasks) None, ns)
      completion in
  (mapM id futures, ns').

(** The outcome of [upload]: the master refused the file, a read of the
    local file raised, or the chunks were sent and [all(results)] is the
    flag. *)
Inductive Uploaded : Type :=
  | Refused (code : Z)
  | ReadFailed
  | Sent (all_stored : bool).

(** [upload] of the local file [file] under the name [filename]. *)
Definition upload (t1 t2 : Time) (clock : nat → Time * Time * Time)
    (completion : list nat) (filename : string) (file : bytes) (cl : State)
    : option Uploaded * State :=
  let filesize := Z.of_nat (length file) in
  let '(response, m') :=
    create_file dumps t1 t2 (Some filename) (Some filesize) (master cl) in
  match response with
  | Ret (Created _ chunks_info _, 200) =>
      match split_file file chunks_info with
      | None => (Some ReadFailed, mkState m' (nodes cl))
      | Some pieces =>
          let '(results, ns') :=
            upload_all clock pieces completion (nodes cl) in
          (Sent ∘ forallb id <$> results, mkState m' ns')
      end
  | _ => (Some (Refused (status_code response)), mkState m' (nodes cl))
  end.

End WithJson.

(** What a [GET] of a chunk returns on the cluster, served by
    [retrieve_chunk] with the readings [clock] gives for the chunk id.  The
    body of an answer that is not 200, which [download_chunk] does not
    read, is left empty. *)
Definition network (clock : string → Time * Time * Time)
    (ns : gmap string Node) : Network := λ node_url chunk_id,
  nd ← ns !! node_url;
  let '(t0, t1, t2) := clock chunk_id in
  match (Datanode.retrieve_chunk (node_name nd) t0 t1 t2 chunk_id
           (node_state nd)).1 with
  | Ret (Datanode.Octets content, code) => Some (code, content)
  | Ret (_, code) => Some (code, [])
  | Raise _ => Some (500, [])
  end.

Section WithRoute.

(** The client asks for [{MASTER_URL}/file/{filename}] with the file name
    put in the path as it is.  [routed filename] is the name the route
    [/file/<filename>] of the master is called with for that URL, after
    [requests] has prepared it and Flask has matched and decoded it; [None]
    when no route matches, which Flask answers with 404 (the client reads
    the status of that answer only). *)
Variable routed : string → option string.

Definition get_file (filename : string) (m : Master.State)
    : Master.Response :=
  match routed filename with
  | Some name => get_file_info name m
  | None => (Master.Error "Not Found", 404)
  end.

(** [download] of [filename] from the cluster: the request to the master,
    then the retrievals from the nodes. *)
Definition download (clock : string → Time * Time * Time)
    (completion : list nat) (filename : string) (cl : State)
    : option Outcome :=
  Client.download (network clock (nodes cl))
    (get_file filename (master cl)) completion.

End WithRoute.




End Cluster.

(** ** A concrete service, to evaluate the definitions on *)

Module Fixture.

Import Master.

(** An encoder to run the handlers with: it prints a snapshot as JSON text,
    strings without escapes and every number as an integer. *)
Definition quoted (s : string) : string :=
  String (Ascii.ascii_of_nat 34) s +:+ String (Ascii.ascii_of_nat 34) "".

Definition object (fields : list (string * string)) : string :=
  "{" +:+ String.concat ", " ((λ kv, quoted kv.1 +:+ ": " +:+ kv.2) <$> fields)
      +:+ "}".

Definition array (items : list string) : string :=
  "[" +:+ String.concat ", " items +:+ "]".

Definition node_text (n : Node) : string :=
  object [("url", quoted (url n));
          ("registered_at", pretty (registered_at n));
          ("last_heartbeat", pretty (last_heartbeat n))].

Definition chunk_text (c : Chunk) : string :=
  object [("chunk_id", quoted (chunk_id c));
          ("node_id", quoted (node_id c));
          ("node_url", quoted (node_url c));
          ("start", pretty (start c));
          ("size", pretty (size c))].

Definition file_text (f : FileRecord) : string :=
  object [("file_id", quoted (file_id f));
          ("size", pretty (file_size f));
          ("created_at", pretty (created_at f));
          ("chunks", array (chunk_text <$> chunks f))].

Definition dumps (md : Metadata) : string :=
  object [("files", object (prod_map id file_text <$> files md));
          ("datanodes", object (prod_map id node_text <$> md_datanodes md));
          ("chunk_size", pretty (chunk_size md))].

(** A decoder for a disk whose well-formed texts are those of [known]. *)
Definition loads (known : list Metadata) (text : string) : option Metadata :=
  head (filter (λ md, dumps md = text) known).

(** A snapshot saved by a service that had registered node 1. *)
Definition snapshot : Metadata :=
  mkMetadata [] [("1", mkNode "http://datanode1:8001" 1000000 2000000)] 4096.

(** A service with chunk size 4096 and no node; the same service after
    nodes A and B have registered; and after it has then planned a file of
    10000 bytes. *)
Definition empty_service : State :=
  mkState (mkMetadata [] [] 4096) [] None.

Definition registrations : list Request :=
  [PostRegister 1730000000000001 1730000000000002 1730000000000003
     1730000000000004 (Some "A") (Some "http://a:8001");
   PostRegister 1730000000000011 1730000000000012 1730000000000013
     1730000000000014 (Some "B") (Some "http://b:8002")].

Definition two_nodes : State := run dumps empty_service registrations.

Definition upload : list Request :=
  registrations
  ++ [PostFile 1730000000123456 1730000000123999 (Some "f") (Some 10000)].

Definition plan_of_f : list Chunk :=
  [mkChunk "1730000000123_0" "A" "http://a:8001" 0 4096;
   mkChunk "1730000000123_1" "B" "http://b:8002" 4096 4096;
   mkChunk "1730000000123_2" "A" "http://a:8001" 8192 1808].

Definition record_of_f : FileRecord :=
  mkFile "1730000000123" 10000 1730000000123999 plan_of_f.

(** Datanodes that hold one byte for each chunk of the plan. *)
Definition network : Client.Network := λ node_url chunk_id,
  if decide (chunk_id = "1730000000123_0") then Some (200, [Byte.x01])
  else if decide (chunk_id = "1730000000123_1") then Some (200, [Byte.x02])
  else if decide (chunk_id = "1730000000123_2") then Some (200, [Byte.x03])
  else Some (404, []).

(** A node that has stored chunk [c1] twice and served one read. *)
Definition node_history : list Datanode.Request :=
  [Datanode.Put 10 20 30 "c1" [Byte.x00; Byte.x00];
   Datanode.Get 40 50 60 "c1";
   Datanode.Put 70 80 90 "c1" [Byte.x41; Byte.x42; Byte.x43]].


(** A cluster for the transfers: a master with chunk size 4 that has
    registered A and B, a node listening at each of the two addresses, a
    local file of ten bytes, and clocks whose readings differ. *)
Definition small_master : State :=
  run dumps (mkState (mkMetadata [] [] 4) [] None) registrations.

Definition small_cluster : Cluster.State :=
  Cluster.mkState small_master
    (<["http://a:8001" := Cluster.mkNode "A" Datanode.fresh]>
       (<["http://b:8002" := Cluster.mkNode "B" Datanode.fresh]> ∅)).

Definition local_file : bytes :=
  [Byte.x30; Byte.x31; Byte.x32; Byte.x33; Byte.x34;
   Byte.x35; Byte.x36; Byte.x37; Byte.x38; Byte.x39].

Definition store_clock : nat → Time * Time * Time :=
  λ i, (1730000100000000, 1730000100000250, 1730000100000300).


(** A report whose [bytes] field is a string. *)
Definition text_bytes_report : dict json :=
  [("node_id", JStr "1"); ("operation", JStr "read");
   ("bytes", JStr "many"); ("duration_ms", JNum 5)].


Section Doubles.

Import PrimFloat.


End Doubles.

(** [int] on a non-empty string of ASCII digits; this stand-in refuses
    every other string. *)
Definition digit (a : ascii) : option Z :=
  let n := Z.of_nat (nat_of_ascii a) in
  if (48 <=? n) && (n <=? 57) then Some (n - 48) else None.

Fixpoint digits (acc : Z) (s : string) : option Z :=
  match s with
  | EmptyString => Some acc
  | String a s' => d ← digit a; digits (10 * acc + d) s'
  end.

Definition int (s : string) : option Z :=
  if decide (s = "") then None else digits 0 s.

(** A path in which the names made of ASCII letters and digits arrive as
    they were sent; this stand-in lets no other name reach the route, as
    the route itself does with a name that holds a slash. *)
Definition alphanumeric (a : ascii) : bool :=
  let n := Z.of_nat (nat_of_ascii a) in
  ((48 <=? n) && (n <=? 57)) || ((65 <=? n) && (n <=? 90))
  || ((97 <=? n) && (n <=? 122)).

Fixpoint all_alphanumeric (s : string) : bool :=
  match s with
  | EmptyString => true
  | String a s' => alphanumeric a && all_alphanumeric s'
  end.

Definition routed (filename : string) : option string :=
  if all_alphanumeric filename && negb (bool_decide (filename = ""))
  then Some filename else None.

End Fixture.

(** * Properties *)

(** ** Dictionaries and the exception monad *)

Section PythonFacts.

Context {V : Type}.
Implicit Types (d : dict V) (k : string) (v : V).

Lemma dict_get_keys k d : k ∈ dict_keys d ↔ is_Some (dict_get k d).
Proof.
  induction d as [|[k' v'] d IH]; simpl.
  - split; [intros H; inversion H | intros [? ?]; discriminate].
  - rewrite elem_of_cons. destruct (decide (k = k')); simpl.
    + split; eauto.
    + rewrite IH. split; [intros [?|?]; [done|done] | by right].
Qed.

Lemma dict_get_set_eq k v d : dict_get k (dict_set k v d) = Some v.
Proof.
  induction d as [|[k' v'] d IH]; simpl; repeat (case_decide; simpl); congruence.
Qed.

Lemma dict_get_set_ne k k' v d :
  k ≠ k' → dict_get k (dict_set k' v d) = dict_get k d.
Proof.
  intros Hne. induction d as [|[k'' v''] d IH]; simpl;
    repeat (case_decide; simpl); congruence.
Qed.

Lemma dict_in_true k d : dict_in k d = true ↔ is_Some (dict_get k d).
Proof. unfold dict_in. apply bool_decide_eq_true. Qed.

Lemma dict_keys_nil d : dict_keys d = [] ↔ d = [].
Proof. destruct d; simpl; split; congruence. Qed.

(** [dict_set] keeps the position of a key it already holds and appends a
    new key at the end, as assignment to a Python dict does. *)
Lemma dict_keys_set k v d :
  dict_keys (dict_set k v d)
  = if decide (k ∈ dict_keys d) then dict_keys d
    else (dict_keys d ++ [k])%list.
Proof.
  induction d as [|[k' v'] d IH]; simpl; [done |].
  destruct (decide (k = k')) as [->|Hne]; simpl.
  - rewrite decide_True; [done | apply list_elem_of_here].
  - rewrite IH. destruct (decide (k ∈ dict_keys d)) as [Hin|Hnin].
    + rewrite decide_True; [done | by apply list_elem_of_further].
    + rewrite decide_False; [done |].
      rewrite elem_of_cons. by intros [?|?].
Qed.

Lemma dict_set_nodup k v d :
  NoDup (dict_keys d) → NoDup (dict_keys (dict_set k v d)).
Proof.
  intros Hnodup. rewrite dict_keys_set. case_decide as Hin; [done |].
  apply NoDup_app. split; [done |]. split.
  - intros k' Hk' Hk. apply list_elem_of_singleton in Hk. by subst.
  - apply NoDup_singleton.
Qed.

End PythonFacts.

Lemma for_each_Ret {A B} (f : A → Py B) xs ys :
  for_each f xs = Ret ys ↔ Forall2 (λ x y, f x = Ret y) xs ys.
Proof.
  revert ys. induction xs as [|x xs IH]; intros ys; simpl.
  - split.
    + intros [= <-]. constructor.
    + intros H. inversion H. reflexivity.
  - unfold mbind, Py_bind, mret, Py_ret.
    destruct (f x) as [y|e] eqn:Hfx.
    + destruct (for_each f xs) as [zs|e] eqn:Hrest.
      * split.
        -- intros [= <-]. constructor; [done | by apply IH].
        -- intros H. inversion H as [|? y' ? zs' Hy Hzs]; subst.
           apply IH in Hzs. congruence.
      * split; [discriminate |].
        intros H. inversion H as [|? y' ? zs' Hy Hzs]; subst.
        apply IH in Hzs. discriminate.
    + split; [discriminate |].
      intros H. inversion H; subst. congruence.
Qed.

Lemma for_each_total {A B} (f : A → Py B) xs :
  Forall (λ x, ∃ y, f x = Ret y) xs → ∃ ys, for_each f xs = Ret ys.
Proof.
  induction 1 as [|x xs [y Hy] _ [ys Hys]]; simpl.
  - by exists [].
  - exists (y :: ys). by rewrite Hy, Hys.
Qed.

Lemma range_length n : length (range n) = Z.to_nat n.
Proof. unfold range. by rewrite length_fmap, length_seq. Qed.

Lemma range_lookup n (k : nat) :
  (k < Z.to_nat n)%nat → range n !! k = Some (Z.of_nat k).
Proof.
  intros Hk. unfold range. rewrite list_lookup_fmap, lookup_seq_lt by done.
  reflexivity.
Qed.

Lemma elem_of_range n i : i ∈ range n ↔ 0 ≤ i < n.
Proof.
  unfold range. rewrite list_elem_of_fmap. setoid_rewrite elem_of_seq.
  split.
  - intros (k & -> & Hk). lia.
  - intros Hi. exists (Z.to_nat i). lia.
Qed.

(** ** The placement loop *)

Module MasterProofs.
Import Master.

Section Placement.

Variables (nodes : dict Node) (file_id : string) (cs fsz : Z).

Lemma plan_chunk_placed i c :
  plan_chunk (dict_keys nodes) nodes file_id cs fsz i = Ret c →
  placed nodes file_id cs fsz i c.
Proof.
  unfold plan_chunk, placed, dict_keys. rewrite length_fmap.
  unfold mbind, Py_bind, mret, Py_ret, or_raise.
  destruct (_ !! _) as [n|] eqn:Hn; [|discriminate].
  destruct (dict_get n nodes) as [node|] eqn:Hnode; [|discriminate].
  intros [= <-]; simpl. by rewrite Hnode.
Qed.

Lemma plan_chunk_total i :
  nodes ≠ [] → 0 ≤ i →
  ∃ c, plan_chunk (dict_keys nodes) nodes file_id cs fsz i = Ret c.
Proof.
  intros Hne Hi. unfold plan_chunk.
  assert (0 < Z.of_nat (length (dict_keys nodes))) as Hlen.
  { unfold dict_keys. rewrite length_fmap. destruct nodes; simpl; [done | lia]. }
  destruct (lookup_lt_is_Some_2 (dict_keys nodes)
              (Z.to_nat (i `mod` Z.of_nat (length (dict_keys nodes)))))
    as [n Hn].
  { pose proof (Z.mod_pos_bound i _ Hlen). lia. }
  assert (is_Some (dict_get n nodes)) as [node Hnode].
  { apply dict_get_keys. eapply list_elem_of_lookup_2. exact Hn. }
  rewrite Hn; simpl. rewrite Hnode; simpl. eauto.
Qed.

Lemma plan_total n :
  nodes ≠ [] →
  ∃ plan, for_each (plan_chunk (dict_keys nodes) nodes file_id cs fsz)
            (range n) = Ret plan.
Proof.
  intros Hne. apply for_each_total, Forall_forall. intros i Hi.
  apply plan_chunk_total; [done |]. apply elem_of_range in Hi. lia.
Qed.

Lemma plan_placed n plan :
  for_each (plan_chunk (dict_keys nodes) nodes file_id cs fsz) (range n)
    = Ret plan →
  length plan = Z.to_nat n
  ∧ ∀ (k : nat) c, plan !! k = Some c →
      placed nodes file_id cs fsz (Z.of_nat k) c.
Proof.
  intros Hplan. apply for_each_Ret in Hplan.
  pose proof (Forall2_length _ _ _ Hplan) as Hlen.
  rewrite range_length in Hlen. split; [done |].
  intros k c Hk.
  destruct (Forall2_lookup_r _ _ _ _ _ Hplan Hk) as (i & Hi & Hc).
  rewrite range_lookup in Hi.
  - injection Hi as <-. by apply plan_chunk_placed.
  - apply lookup_lt_Some in Hk. lia.
Qed.

End Placement.
(** ** [create_file] *)

Section CreateFile.

Variable dumps : Metadata → string.
Variables (t1 t2 : Time).

Lemma create_file_succeeds name fsz st :
  name ≠ "" → fsz ≠ 0 → chunk_size (metadata st) ≠ 0 → datanodes st ≠ [] →
  ∃ plan,
    for_each (plan_chunk (dict_keys (datanodes st)) (datanodes st)
                (pretty (millis t1)) (chunk_size (metadata st)) fsz)
      (range ((fsz + chunk_size (metadata st) - 1)
                `div` chunk_size (metadata st))) = Ret plan
    ∧ create_file dumps t1 t2 (Some name) (Some fsz) st
      = (Ret (Created (pretty (millis t1)) plan (chunk_size (metadata st)), 200),
         committed dumps t1 t2 name fsz plan st).
Proof.
  intros Hname Hfsz Hcs Hnodes.
  destruct (plan_total (datanodes st) (pretty (millis t1))
              (chunk_size (metadata st)) fsz
              ((fsz + chunk_size (metadata st) - 1)
                 `div` chunk_size (metadata st)) Hnodes) as [plan Hplan].
  exists plan. split; [done |].
  unfold create_file; simpl.
  rewrite bool_decide_eq_false_2 by done.
  apply Z.eqb_neq in Hfsz as ->. apply Z.eqb_neq in Hcs as ->. simpl.
  rewrite bool_decide_eq_false_2 by (by rewrite dict_keys_nil).
  by rewrite Hplan.
Qed.

Lemma create_file_inv filename filesize st file_id plan cs st' :
  create_file dumps t1 t2 filename filesize st
    = (Ret (Created file_id plan cs, 200), st') →
  ∃ name fsz,
    filename = Some name ∧ filesize = Some fsz
    ∧ file_id = pretty (millis t1) ∧ cs = chunk_size (metadata st)
    ∧ for_each (plan_chunk (dict_keys (datanodes st)) (datanodes st)
                  file_id cs fsz)
        (range ((fsz + cs - 1) `div` cs)) = Ret plan
    ∧ st' = committed dumps t1 t2 name fsz plan st.
Proof.
  unfold create_file.
  destruct (negb (truthy_str filename) || negb (truthy_int filesize))
    eqn:Hreq; [intros [=] |].
  destruct (chunk_size (metadata st) =? 0); [intros [=] |].
  destruct (bool_decide _); [intros [=] |].
  destruct (for_each _ _) as [plan'|e] eqn:Hplan; [|intros [=]].
  intros [= <- <- <- <-].
  destruct filename as [name|]; [|done].
  destruct filesize as [fsz|]; [|simpl in Hreq; by rewrite orb_true_r in Hreq].
  exists name, fsz. by repeat split.
Qed.

End CreateFile.

(** ** Tiling of the byte range *)

Lemma tiles_total_size lo hi plan :
  tiles lo hi plan → total_size plan = hi - lo.
Proof.
  unfold total_size. revert lo.
  induction plan as [|c plan IH]; intros lo; simpl.
  - intros ->. lia.
  - intros (Hs & _ & Hrest). apply IH in Hrest. lia.
Qed.

Lemma ceil_div_bounds fsz cs :
  0 < cs →
  let n := (fsz + cs - 1) `div` cs in (n - 1) * cs < fsz ≤ n * cs.
Proof.
  intros Hcs n.
  pose proof (Z.div_mod (fsz + cs - 1) cs ltac:(lia)) as Hdm.
  pose proof (Z.mod_pos_bound (fsz + cs - 1) cs Hcs) as Hm.
  fold n in Hdm. nia.
Qed.

Lemma tiles_from_ordinal cs fsz n plan (k : nat) :
  0 < cs → (n - 1) * cs < fsz ≤ n * cs →
  Z.of_nat k + Z.of_nat (length plan) = n →
  (∀ (j : nat) c, plan !! j = Some c →
     start c = Z.of_nat (k + j) * cs
     ∧ size c = Z.min cs (fsz - Z.of_nat (k + j) * cs)) →
  tiles (Z.min fsz (Z.of_nat k * cs)) fsz plan.
Proof.
  intros Hcs Hn. revert k.
  induction plan as [|c plan IH]; intros k Hlen Hplan; simpl in *.
  - replace n with (Z.of_nat k) in Hn by lia. lia.
  - destruct (Hplan 0%nat c eq_refl) as [Hstart Hsize].
    rewrite Nat.add_0_r in Hstart, Hsize.
    assert (Z.of_nat k * cs < fsz) as Hlt by nia.
    repeat split; [lia | lia |].
    replace (Z.min fsz (Z.of_nat k * cs) + size c)
      with (Z.min fsz (Z.of_nat (S k) * cs)) by nia.
    apply IH; [lia |].
    intros j c' Hj. specialize (Hplan (S j) c' Hj).
    by replace (S k + j)%nat with (k + S j)%nat by lia.
Qed.

(** C6.  For every positive [filesize], every positive chunk size and every
    registry with at least one node, [create_file] answers 200 with a plan
    that it also stores under the file name; chunk [i] of the plan starts at
    [i * chunk_size] and has size [min(chunk_size, filesize - i * chunk_size)];
    the sizes sum to [filesize]; and the ranges [start, start + size) are
    non-empty and laid end to end from 0 to [filesize], so they cover
    [0, filesize) with no gap and no overlap. *)
Theorem create_file_plan_tiles dumps t1 t2 name filesize st :
  name ≠ "" → 0 < filesize → 0 < chunk_size (metadata st) →
  datanodes st ≠ [] →
  let cs := chunk_size (metadata st) in
  ∃ file_id plan st',
    create_file dumps t1 t2 (Some name) (Some filesize) st
      = (Ret (Created file_id plan cs, 200), st')
    ∧ chunks <$> dict_get name (files (metadata st')) = Some plan
    ∧ Z.of_nat (length plan) = (filesize + cs - 1) `div` cs
    ∧ (∀ (i : nat) c, plan !! i = Some c →
         start c = Z.of_nat i * cs
         ∧ size c = Z.min cs (filesize - Z.of_nat i * cs))
    ∧ total_size plan = filesize
    ∧ tiles 0 filesize plan.
Proof.
  intros Hname Hfsz Hcs Hnodes cs.
  destruct (create_file_succeeds dumps t1 t2 name filesize st)
    as (plan & Hplan & Hcreate); [done | lia | lia | done |].
  fold cs in Hplan, Hcreate.
  apply plan_placed in Hplan as [Hlen Hplaced].
  pose proof (ceil_div_bounds filesize cs Hcs) as Hn. simpl in Hn.
  assert (∀ (i : nat) c, plan !! i = Some c →
            start c = Z.of_nat i * cs
            ∧ size c = Z.min cs (filesize - Z.of_nat i * cs)) as Hshape.
  { intros i c Hi. destruct (Hplaced i c Hi) as (_ & _ & _ & ? & ?). done. }
  assert (Z.of_nat (length plan) = (filesize + cs - 1) `div` cs) as Hlen'.
  { rewrite Hlen. apply Z2Nat.id. nia. }
  assert (tiles 0 filesize plan) as Htiles.
  { replace 0 with (Z.min filesize (Z.of_nat 0 * cs)) by lia.
    eapply tiles_from_ordinal; [exact Hcs | exact Hn | lia |].
    intros j c Hj. simpl. by apply Hshape. }
  exists (pretty (millis t1)), plan, (committed dumps t1 t2 name filesize plan st).
  repeat split; try done.
  - simpl. by rewrite dict_get_set_eq.
  - by apply Hshape.
  - by apply Hshape.
  - apply tiles_total_size in Htiles. lia.
Qed.

(** C3, as the code has it.  [create_file] rejects [filesize = 0]: the
    guard [not filesize] answers 400 for every file name and every
    registry, and the state (files mapping, registry, snapshot file) is
    left as it was. *)
Theorem create_file_zero_size_rejected dumps t1 t2 filename st :
  create_file dumps t1 t2 filename (Some 0) st
  = (Ret (Error "Missing filename or filesize", 400), st).
Proof. unfold create_file. simpl. by rewrite orb_true_r. Qed.

Lemma create_file_empty_registry dumps t1 t2 filename filesize st :
  datanodes st = [] →
  (create_file dumps t1 t2 filename filesize st).2 = st
  ∧ (truthy_str filename = true → truthy_int filesize = true →
     chunk_size (metadata st) ≠ 0 →
     (create_file dumps t1 t2 filename filesize st).1
     = Ret (Error "No active datanodes available", 503)).
Proof.
  intros Hempty. unfold create_file. rewrite Hempty. simpl. split.
  - destruct (_ || _); [done |]. by destruct (_ =? 0).
  - intros -> -> Hcs. simpl. by apply Z.eqb_neq in Hcs as ->.
Qed.

(** C8, as the code has it.  With an empty registry [create_file] never
    changes the state: the files mapping, the registry and the snapshot file
    are exactly as before.  The argument check comes first, so a request
    without a file name, or whose size is missing or 0, is answered 400 as
    with any registry; a request that passes it is answered 503, no active
    datanodes, on a service with a non-zero chunk size, and raises in the
    division by the chunk size otherwise. *)
Theorem create_file_no_nodes dumps t1 t2 filename filesize st :
  datanodes st = [] →
  (create_file dumps t1 t2 filename filesize st).2 = st
  ∧ files (metadata (create_file dumps t1 t2 filename filesize st).2)
    = files (metadata st)
  ∧ metadata_file (create_file dumps t1 t2 filename filesize st).2
    = metadata_file st
  ∧ (truthy_str filename = false ∨ truthy_int filesize = false →
     (create_file dumps t1 t2 filename filesize st).1
     = Ret (Error "Missing filename or filesize", 400))
  ∧ (truthy_str filename = true → truthy_int filesize = true →
     chunk_size (metadata st) ≠ 0 →
     (create_file dumps t1 t2 filename filesize st).1
     = Ret (Error "No active datanodes available", 503))
  ∧ (truthy_str filename = true → truthy_int filesize = true →
     chunk_size (metadata st) = 0 →
     (create_file dumps t1 t2 filename filesize st).1
     = Raise ZeroDivisionError).
Proof.
  intros Hempty.
  destruct (create_file_empty_registry dumps t1 t2 filename filesize st Hempty)
    as [Hst Hresp].
  rewrite Hst. split; [done |]. split; [done |]. split; [done |].
  split; [|split; [done |]].
  - unfold create_file. intros [-> | ->]; simpl; by rewrite ?orb_true_r.
  - unfold create_file. intros -> -> ->. done.
Qed.

(** ** Round-robin counts *)

Lemma assigned_snoc n plan c :
  assigned n (plan ++ [c])
  = (assigned n plan + if decide (node_id c = n) then 1 else 0)%nat.
Proof.
  unfold assigned. rewrite filter_app, length_app. f_equal.
  rewrite filter_cons, filter_nil. by case_decide.
Qed.

Lemma round_robin_step (K N j : nat) :
  (j < N)%nat →
  ((S K `div` N + if decide (j < S K `mod` N) then 1 else 0)
   = (K `div` N + if decide (j < K `mod` N) then 1 else 0)
     + if decide (K `mod` N = j) then 1 else 0)%nat.
Proof.
  intros Hj.
  assert (N ≠ 0)%nat as HN by lia.
  pose proof (Nat.div_mod_eq K N) as HK.
  pose proof (Nat.mod_upper_bound K N HN) as HKm.
  destruct (decide (S (K `mod` N) = N)) as [Hwrap|Hwrap].
  - assert (S K = N * S (K `div` N) + 0)%nat as HS
      by (rewrite Nat.mul_succ_r; lia).
    rewrite <- (Nat.div_unique (S K) N (S (K `div` N)) 0 ltac:(lia) HS).
    rewrite <- (Nat.mod_unique (S K) N (S (K `div` N)) 0 ltac:(lia) HS).
    repeat case_decide; lia.
  - assert (S K = N * (K `div` N) + S (K `mod` N))%nat as HS by lia.
    rewrite <- (Nat.div_unique (S K) N (K `div` N) (S (K `mod` N))
                  ltac:(lia) HS).
    rewrite <- (Nat.mod_unique (S K) N (K `div` N) (S (K `mod` N))
                  ltac:(lia) HS).
    repeat case_decide; lia.
Qed.

Lemma round_robin_count (keys : list string) (j : nat) n plan :
  NoDup keys → keys !! j = Some n →
  (∀ (k : nat) c, plan !! k = Some c →
     keys !! (k `mod` length keys)%nat = Some (node_id c)) →
  assigned n plan
  = (length plan `div` length keys
     + if decide (j < length plan `mod` length keys) then 1 else 0)%nat.
Proof.
  intros Hnodup Hj. pose proof (lookup_lt_Some _ _ _ Hj) as Hjlt.
  induction plan as [|c plan IH] using rev_ind; intros Hplan.
  - simpl. rewrite Nat.Div0.div_0_l, Nat.Div0.mod_0_l.
    case_decide; [lia | done].
  - rewrite assigned_snoc, length_app, Nat.add_1_r. simpl.
    rewrite round_robin_step by done.
    rewrite IH.
    + f_equal.
      specialize (Hplan (length plan) c).
      rewrite lookup_app_r, Nat.sub_diag in Hplan by lia.
      specialize (Hplan eq_refl).
      destruct (decide (node_id c = n)) as [Heq|Hne].
      * rewrite Heq in Hplan.
        rewrite decide_True; [done |].
        eapply NoDup_lookup; eauto.
      * rewrite decide_False; [done |]. intros Heq.
        rewrite Heq in Hplan. congruence.
    + intros k c' Hk. apply Hplan. by apply lookup_app_l_Some.
Qed.

(** C7.  In the plan [create_file] returns, with [K] chunks placed over the
    [N] registered nodes, every registered node is assigned [K div N] or
    [(K + N - 1) div N] chunks, the floor and the ceiling of [K / N]. *)
Theorem round_robin_fair dumps t1 t2 filename filesize st file_id plan cs st' :
  NoDup (dict_keys (datanodes st)) →
  create_file dumps t1 t2 filename filesize st
    = (Ret (Created file_id plan cs, 200), st') →
  ∀ n, n ∈ dict_keys (datanodes st) →
    let K := length plan in
    let N := length (datanodes st) in
    (assigned n plan = K `div` N ∨ assigned n plan = (K + N - 1) `div` N)%nat.
Proof.
  intros Hnodup Hcreate n Hn K N.
  apply create_file_inv in Hcreate
    as (name & fsz & _ & _ & _ & _ & Hplan & _).
  apply plan_placed in Hplan as [_ Hplaced].
  apply list_elem_of_lookup in Hn as [j Hj].
  assert (length (dict_keys (datanodes st)) = N) as HN.
  { unfold dict_keys. by rewrite length_fmap. }
  pose proof (lookup_lt_Some _ _ _ Hj) as Hjlt. rewrite HN in Hjlt.
  rewrite (round_robin_count (dict_keys (datanodes st)) j n plan Hnodup Hj).
  - rewrite HN. fold K.
    assert (N ≠ 0)%nat as HN0 by lia.
    pose proof (Nat.div_mod_eq K N) as HK.
    pose proof (Nat.mod_upper_bound K N HN0) as HKm.
    case_decide as Hlt; [right | left; lia].
    assert (K + N - 1 = N * S (K `div` N) + (K `mod` N - 1))%nat as HS
      by (rewrite Nat.mul_succ_r; lia).
    rewrite <- (Nat.div_unique (K + N - 1) N (S (K `div` N)) (K `mod` N - 1)
                  ltac:(lia) HS). lia.
  - intros k c Hk. destruct (Hplaced k c Hk) as (_ & Hnode & _).
    rewrite HN. fold N in Hnode.
    rewrite <- Hnode. f_equal.
    rewrite <- Nat2Z.inj_mod. by rewrite Nat2Z.id.
Qed.

(** ** [record_stats] *)

Lemma Qeq_bool_div_1000 q :
  Qeq_bool q 0 = false → Qeq_bool (q / 1000) 0 = false.
Proof.
  destruct q as [a b]. unfold Qeq_bool, Qdiv, Qmult, Qinv. simpl.
  rewrite !Z.mul_1_r. done.
Qed.

Lemma truthy_number_nonzero v q :
  truthy v = true → as_number v = Ret q → Qeq_bool q 0 = false.
Proof.
  destruct v as [|b|q'| | |]; simpl; try discriminate.
  - intros -> [= <-]. reflexivity.
  - intros Hq [= <-]. by apply negb_true_iff.
Qed.


Section Stats.

Import PrimFloat.


End Stats.

(** ** Registration, heartbeat and restart *)

Section Registry.

Variable dumps : Metadata → string.
Variable loads : string → option Metadata.

Lemma is_node_registred_known id nodes :
  is_Some (dict_get id nodes) →
  is_node_registred (Some id) nodes
  = (true, "Node with id " +:+ id +:+ " is registered!").
Proof. intros [n Hn]. unfold is_node_registred. simpl. by rewrite Hn. Qed.

Lemma is_node_registred_unknown node_id nodes :
  (node_id ≫= λ k, dict_get k nodes) = None →
  (is_node_registred node_id nodes).1 = false.
Proof. intros Hn. unfold is_node_registred. by rewrite Hn. Qed.

Lemma register_new_node t1 t2 t3 t4 id u st :
  id ≠ "" → u ≠ "" → dict_get id (datanodes st) = None →
  register_datanode dumps t1 t2 t3 t4 (Some id) (Some u) st
  = (Ret (Registered (chunk_size (metadata st)), 200),
     save_metadata dumps
       (mkState
          (set_md_datanodes
             (dict_set id (mkNode u t3 t4) (md_datanodes (metadata st)))
             (metadata st))
          (dict_set id (mkNode u t1 t2) (datanodes st))
          (metadata_file st))).
Proof.
  intros Hid Hu Hnew. unfold register_datanode, is_node_registred. simpl.
  rewrite Hnew. simpl. by rewrite !bool_decide_eq_false_2.
Qed.

Lemma heartbeat_unknown t1 t2 node_id st :
  (node_id ≫= λ k, dict_get k (datanodes st)) = None →
  heartbeat dumps t1 t2 node_id st = (Ret (Error "Unknown node_id", 400), st).
Proof.
  intros Hn. unfold heartbeat.
  destruct node_id as [id|]; simpl in *; [|done].
  replace (dict_in id (datanodes st)) with false.
  - by rewrite orb_true_r.
  - symmetry. apply not_true_is_false. rewrite dict_in_true, Hn.
    by intros [? ?].
Qed.

Lemma heartbeat_known t1 t2 id st n m :
  id ≠ "" → dict_get id (datanodes st) = Some n →
  dict_get id (md_datanodes (metadata st)) = Some m →
  (heartbeat dumps t1 t2 (Some id) st).1 = Ret (Status "alive", 200).
Proof.
  intros Hid Hn Hm. unfold heartbeat. simpl.
  rewrite bool_decide_eq_false_2 by done.
  replace (dict_in id (datanodes st)) with true
    by (symmetry; apply dict_in_true; eauto).
  simpl. by rewrite Hn, Hm.
Qed.

(** C4, as the code has it.  For every [node_id] already present in the
    registry, a second [register_datanode] for it answers 200 with a body
    that holds only the status message, and the whole state is left as it
    was: the node's [url], [registered_at] and [last_heartbeat], the rest
    of the registry, the metadata and the snapshot file. *)
Theorem register_again_changes_nothing t1 t2 t3 t4 id node_url st :
  is_Some (dict_get id (datanodes st)) →
  register_datanode dumps t1 t2 t3 t4 (Some id) node_url st
  = (Ret (Status ("Node with id " +:+ id +:+ " is registered!"), 200), st).
Proof.
  intros Hknown. unfold register_datanode.
  by rewrite (is_node_registred_known _ _ Hknown).
Qed.

(** C2, as the code has it.  After the service has started from a snapshot,
    its metadata is the snapshot but its registry is empty: every heartbeat
    is answered 400 and every well-formed [create_file] 503, whatever
    nodes the snapshot records.  Once a node has registered with the new
    process, a heartbeat for it is answered 200 and [create_file] assigns
    the chunks of a plan to it. *)
Theorem restart_needs_registration text snap st :
  loads text = Some snap →
  startup dumps loads (Some text) = Ret st →
  metadata st = snap ∧ datanodes st = []
  ∧ (∀ t1 t2 node_id,
       heartbeat dumps t1 t2 node_id st
       = (Ret (Error "Unknown node_id", 400), st))
  ∧ (∀ t1 t2 filename filesize,
       truthy_str filename = true → truthy_int filesize = true →
       chunk_size snap ≠ 0 →
       create_file dumps t1 t2 filename filesize st
       = (Ret (Error "No active datanodes available", 503), st))
  ∧ (∀ ta tb tc td id u, id ≠ "" → u ≠ "" →
       let registered :=
         register_datanode dumps ta tb tc td (Some id) (Some u) st in
       registered.1 = Ret (Registered (chunk_size snap), 200)
       ∧ (∀ t1 t2,
            (heartbeat dumps t1 t2 (Some id) registered.2).1
            = Ret (Status "alive", 200))
       ∧ (∀ t1 t2 name fsz, name ≠ "" → 0 < fsz → 0 < chunk_size snap →
            ∃ file_id plan,
              (create_file dumps t1 t2 (Some name) (Some fsz) registered.2).1
              = Ret (Created file_id plan (chunk_size snap), 200)
              ∧ plan ≠ [] ∧ Forall (λ c, node_id c = id) plan)).
Proof.
  intros Hload Hstart. unfold startup in Hstart. rewrite Hload in Hstart.
  simpl in Hstart. injection Hstart as <-. simpl.
  split; [done |]. split; [done |]. split; [|split].
  - intros t1 t2 node_id. apply heartbeat_unknown. simpl.
    by destruct node_id.
  - intros t1 t2 filename filesize Hname Hsize Hcs.
    pose proof (create_file_empty_registry dumps t1 t2 filename filesize
                  (mkState snap [] (Some text)) eq_refl) as [Hst Hresp].
    specialize (Hresp Hname Hsize Hcs).
    destruct (create_file _ _ _ _ _ _) as [r s]. simpl in *. by subst.
  - intros ta tb tc td id u Hid Hu.
    rewrite register_new_node by done. simpl.
    split; [done |]. split.
    + intros t1 t2. eapply heartbeat_known; [done | |]; simpl.
      * by rewrite decide_True.
      * apply dict_get_set_eq.
    + intros t1 t2 name fsz Hname Hfsz Hcs.
      match goal with |- context [create_file _ _ _ _ _ ?s] => set (st1 := s) end.
      destruct (create_file_succeeds dumps t1 t2 name fsz st1)
        as (plan & Hplan & Hcreate); [done | lia | simpl; lia | done |].
      exists (pretty (millis t1)), plan. rewrite Hcreate. simpl.
      split; [done |].
      apply plan_placed in Hplan as [Hlen Hplaced]. split.
      * intros ->. simpl in Hlen.
        pose proof (ceil_div_bounds fsz (chunk_size snap) Hcs) as Hn.
        simpl in Hn. nia.
      * apply Forall_lookup. intros k c Hk.
        destruct (Hplaced k c Hk) as (_ & Hnode & _). simpl in Hnode.
        rewrite Z.mod_1_r in Hnode. simpl in Hnode. congruence.
Qed.

(** C5, as the code has it.  [save_metadata] opens the snapshot file for
    writing in place and writes the encoded snapshot into it; there is no
    staging file and no replace step.  From the moment the file is opened
    its content no longer depends on the previous snapshot and is a prefix
    of the new text: empty just after the open, the whole text once the
    save has run to its end, which is what a handler leaves on disk. *)
Theorem save_metadata_overwrites_in_place md old :
  file_at dumps Opened md old = Some ""
  ∧ file_at dumps Closed md old = Some (dumps md)
  ∧ (∀ p, p ≠ BeforeOpen →
       ∃ n, file_at dumps p md old = Some (String.substring 0 n (dumps md))
            ∧ ∀ old', file_at dumps p md old' = file_at dumps p md old)
  ∧ (∀ st,
       metadata_file (save_metadata dumps st) = Some (dumps (metadata st))).
Proof.
  split; [done |]. split; [done |]. split; [|done].
  intros [| |n|] Hp; [done | | |].
  - exists 0%nat. split; [|done]. simpl. by destruct (dumps md).
  - by exists n.
  - exists (String.length (dumps md)). split; [|done]. simpl. f_equal.
    induction (dumps md) as [|a s IH]; simpl; [done |]. by rewrite <- IH.
Qed.

End Registry.

(** ** Every stored plan is in ascending offset order *)

Lemma placed_starts_sorted cs plan (k0 : nat) :
  0 < cs →
  (∀ (j : nat) c, plan !! j = Some c → start c = Z.of_nat (k0 + j) * cs) →
  Sorted Z.le (start <$> plan).
Proof.
  intros Hcs. revert k0.
  induction plan as [|c plan IH]; intros k0 Hplan; simpl; [constructor |].
  constructor.
  - apply (IH (S k0)). intros j c' Hj.
    rewrite (Hplan (S j) c' Hj). f_equal. lia.
  - destruct plan as [|c' plan]; simpl; constructor.
    rewrite (Hplan 0%nat c eq_refl), (Hplan 1%nat c' eq_refl). nia.
Qed.

Section Invariant.

Variable dumps : Metadata → string.

Lemma register_datanode_files t1 t2 t3 t4 node_id node_url st :
  let st' := (register_datanode dumps t1 t2 t3 t4 node_id node_url st).2 in
  files (metadata st') = files (metadata st)
  ∧ chunk_size (metadata st') = chunk_size (metadata st).
Proof.
  unfold register_datanode.
  destruct (is_node_registred _ _) as [[] message]; [done |].
  by destruct (_ || _).
Qed.

Lemma heartbeat_files t1 t2 node_id st :
  let st' := (heartbeat dumps t1 t2 node_id st).2 in
  files (metadata st') = files (metadata st)
  ∧ chunk_size (metadata st') = chunk_size (metadata st).
Proof.
  unfold heartbeat. destruct (_ || _); [done |].
  destruct (dict_get _ (datanodes st)); [|done]. simpl.
  by destruct (dict_get _ (md_datanodes (metadata st))).
Qed.

Lemma create_file_state t1 t2 filename filesize st :
  (create_file dumps t1 t2 filename filesize st).2 = st
  ∨ ∃ name fsz plan,
      for_each (plan_chunk (dict_keys (datanodes st)) (datanodes st)
                  (pretty (millis t1)) (chunk_size (metadata st)) fsz)
        (range ((fsz + chunk_size (metadata st) - 1)
                  `div` chunk_size (metadata st))) = Ret plan
      ∧ (create_file dumps t1 t2 filename filesize st).2
        = committed dumps t1 t2 name fsz plan st.
Proof.
  unfold create_file. destruct (_ || _); [by left |].
  destruct (_ =? 0); [by left |].
  destruct (bool_decide _); [by left |].
  destruct (for_each _ _) as [plan|e] eqn:Hplan; [|by left].
  right. by exists (default "" filename), (default 0 filesize), plan.
Qed.

Lemma handle_registry_nodup rq st :
  NoDup (dict_keys (datanodes st)) →
  NoDup (dict_keys (datanodes (handle dumps rq st).2)).
Proof.
  intros Hnodup.
  destruct rq as [t1 t2 t3 t4 node_id node_url | t1 t2 node_id
                 | t1 t2 filename filesize | filename | | data]; simpl;
    try done.
  - unfold register_datanode.
    destruct (is_node_registred _ _) as [[] message]; [done |].
    destruct (_ || _); [done |]. simpl. by apply dict_set_nodup.
  - unfold heartbeat. destruct (_ || _); [done |].
    destruct (dict_get _ (datanodes st)); [|done]. simpl.
    destruct (dict_get _ (md_datanodes (metadata st))); simpl;
      by apply dict_set_nodup.
  - destruct (create_file_state t1 t2 filename filesize st)
      as [-> | (name & fsz & plan & _ & ->)]; done.
Qed.

(** The registry of a service that started with no node never holds a key
    twice. *)
Lemma run_registry_nodup history st :
  NoDup (dict_keys (datanodes st)) →
  NoDup (dict_keys (datanodes (run dumps st history))).
Proof.
  revert st. induction history as [|rq history IH]; intros st Hnodup.
  - done.
  - simpl. by apply IH, handle_registry_nodup.
Qed.

Lemma handle_plans_ascending rq st :
  0 < chunk_size (metadata st) → plans_ascending (metadata st) →
  0 < chunk_size (metadata (handle dumps rq st).2)
  ∧ plans_ascending (metadata (handle dumps rq st).2).
Proof.
  intros Hcs Hinv. unfold plans_ascending in *.
  destruct rq as [t1 t2 t3 t4 node_id node_url | t1 t2 node_id
                 | t1 t2 filename filesize | filename | | data]; simpl;
    try done.
  - destruct (register_datanode_files t1 t2 t3 t4 node_id node_url st)
      as [Hfiles Hsame].
    rewrite Hfiles, Hsame. done.
  - destruct (heartbeat_files t1 t2 node_id st) as [Hfiles Hsame].
    rewrite Hfiles, Hsame. done.
  - destruct (create_file_state t1 t2 filename filesize st)
      as [-> | (name & fsz & plan & Hplan & ->)]; [done |].
    simpl. split; [done |].
    intros name' f. destruct (decide (name' = name)) as [->|Hne].
    + rewrite dict_get_set_eq. intros [= <-]. simpl.
      apply plan_placed in Hplan as [_ Hplaced].
      apply (placed_starts_sorted (chunk_size (metadata st)) plan 0 Hcs).
      intros j c Hj. by destruct (Hplaced j c Hj) as (_ & _ & _ & ? & _).
    + rewrite dict_get_set_ne by done. apply Hinv.
Qed.

Lemma run_plans_ascending history st :
  0 < chunk_size (metadata st) → plans_ascending (metadata st) →
  plans_ascending (metadata (run dumps st history)).
Proof.
  revert st. induction history as [|rq history IH]; intros st Hcs Hinv.
  - done.
  - simpl. destruct (handle_plans_ascending rq st Hcs Hinv).
    by apply IH.
Qed.

End Invariant.
End MasterProofs.

(** ** The download path *)

Module ClientProofs.
Import Master Client.

Section Pool.

Context {A B : Type} (fn : A → B) (tasks : list A).

Lemma resolve_length futures i :
  length (resolve fn tasks futures i) = length futures.
Proof. unfold resolve. destruct (tasks !! i); by rewrite ?length_insert. Qed.

Lemma workers_length futures completion :
  length (foldl (resolve fn tasks) futures completion) = length futures.
Proof.
  revert futures. induction completion as [|j rest IH]; intros futures.
  - done.
  - simpl. by rewrite IH, resolve_length.
Qed.

Lemma workers_lookup futures completion i a :
  length futures = length tasks → tasks !! i = Some a →
  foldl (resolve fn tasks) futures completion !! i
  = if bool_decide (i ∈ completion) then Some (Some (fn a)) else futures !! i.
Proof.
  intros Hlen Hi. revert futures Hlen.
  induction completion as [|j rest IH]; intros futures Hlen; simpl.
  - done.
  - rewrite IH by (by rewrite resolve_length).
    destruct (decide (i = j)) as [<-|Hne].
    + rewrite (bool_decide_eq_true_2 (i ∈ i :: rest)) by apply list_elem_of_here.
      unfold resolve. rewrite Hi.
      rewrite list_lookup_insert_eq
        by (rewrite Hlen; by eapply lookup_lt_Some).
      by case_bool_decide.
    + assert (resolve fn tasks futures j !! i = futures !! i) as ->.
      { unfold resolve. destruct (tasks !! j); [|done].
        by rewrite list_lookup_insert_ne. }
      rewrite (bool_decide_ext (i ∈ j :: rest) (i ∈ rest)); [done |].
      rewrite elem_of_cons. split; [intros [?|?]; done | by right].
Qed.

(** Whatever the order in which the workers finish, once every task has
    finished [executor.map] yields the results in the order of the tasks. *)
Lemma executor_map_in_task_order completion :
  (∀ i, (i < length tasks)%nat → i ∈ completion) →
  executor_map fn tasks completion = Some (fn <$> tasks).
Proof.
  intros Hall. unfold executor_map, run_workers.
  assert (foldl (resolve fn tasks) (replicate (length tasks) None) completion
          = Some <$> (fn <$> tasks)) as ->.
  { apply list_eq. intros i. rewrite !list_lookup_fmap.
    destruct (tasks !! i) as [a|] eqn:Hi; simpl.
    - rewrite (workers_lookup _ _ i a) by (by rewrite ?length_replicate).
      rewrite bool_decide_eq_true_2; [done |].
      apply Hall. by eapply lookup_lt_Some.
    - apply lookup_ge_None. rewrite workers_length, length_replicate.
      by apply lookup_ge_None. }
  by apply mapM_fmap_Some.
Qed.

End Pool.


(** *** [sort_by_start] is the stable ascending sort *)

Lemma insert_by_start_perm c l : insert_by_start c l ≡ₚ c :: l.
Proof.
  induction l as [|d l IH]; simpl; [done |].
  destruct (d_start c <=? d_start d); [done |].
  rewrite IH. apply Permutation_swap.
Qed.

Lemma sort_by_start_perm l : sort_by_start l ≡ₚ l.
Proof.
  induction l as [|c l IH]; simpl; [done |].
  by rewrite insert_by_start_perm, IH.
Qed.

Lemma insert_by_start_sorted c l :
  Sorted Z.le (d_start <$> l) → Sorted Z.le (d_start <$> insert_by_start c l).
Proof.
  induction l as [|d l IH]; simpl.
  - intros _. by repeat constructor.
  - intros Hsorted. destruct (d_start c <=? d_start d) eqn:Hle; simpl.
    + constructor; [done |]. constructor. lia.
    + apply Sorted_inv in Hsorted as [Htail Hhd].
      constructor; [by apply IH |].
      destruct l as [|e l]; simpl in *.
      * constructor. lia.
      * destruct (d_start c <=? d_start e); simpl; constructor; [lia |].
        by inversion Hhd.
Qed.

Lemma sort_by_start_sorted l : Sorted Z.le (d_start <$> sort_by_start l).
Proof.
  induction l as [|c l IH]; simpl; [constructor |].
  by apply insert_by_start_sorted.
Qed.

Lemma sort_by_start_id l :
  Sorted Z.le (d_start <$> l) → sort_by_start l = l.
Proof.
  induction l as [|c l IH]; simpl; [done |].
  intros Hsorted. apply Sorted_inv in Hsorted as [Htail Hhd].
  rewrite IH by done.
  destruct l as [|d l]; simpl in *; [done |].
  inversion Hhd; subst. by rewrite (proj2 (Z.leb_le _ _)).
Qed.

(** *** Retrieval *)

(** [retrieved net c d]: [d] is what [download_chunk] returns for the plan
    entry [c] when the node answers 200. *)
Lemma download_chunk_retrieved (net : Network) c content :
  net (node_url c) (chunk_id c) = Some (200, content) →
  download_chunk net c = Some (mkDownloaded (chunk_id c) (start c) content).
Proof. intros Hnet. unfold download_chunk. by rewrite Hnet. Qed.

Lemma all_retrieved (net : Network) plan :
  Forall (λ c, ∃ content, net (node_url c) (chunk_id c) = Some (200, content))
    plan →
  ∃ got,
    omap id (download_chunk net <$> plan) = got
    ∧ Forall2 (λ c d, d_chunk_id d = chunk_id c ∧ d_start d = start c
                      ∧ net (node_url c) (chunk_id c) = Some (200, d_data d))
        plan got.
Proof.
  induction 1 as [|c plan [content Hc] _ (got & <- & Hall)].
  - exists []. split; [done | constructor].
  - eexists. split; [done |].
    rewrite fmap_cons, (download_chunk_retrieved net c content Hc).
    by constructor.
Qed.

(** What the download path does for any plan: once every retrieval has
    succeeded, the bytes written are the retrieved data in the order of the
    plan, whatever the order in which the retrievals completed. *)
Lemma download_in_plan_order (net : Network) info completion :
  Forall (λ c, ∃ content, net (node_url c) (chunk_id c) = Some (200, content))
    (chunks info) →
  completion ≡ₚ seq 0 (length (chunks info)) →
  ∃ got,
    Forall2 (λ c d, d_chunk_id d = chunk_id c ∧ d_start d = start c
                    ∧ net (node_url c) (chunk_id c) = Some (200, d_data d))
      (chunks info) got
    ∧ download net (FileInfo info, 200) completion
      = Some (Written false (concat (d_data <$> got))).
Proof.
  intros Hnet Hcompletion.
  destruct (all_retrieved net (chunks info) Hnet) as (got & Hgot & Hall).
  exists got. split; [done |]. unfold download.
  rewrite executor_map_in_task_order; simpl.
  - rewrite Hgot.
    by rewrite bool_decide_eq_true_2 by (symmetry; by eapply Forall2_length).
  - intros i Hi. rewrite Hcompletion. apply elem_of_seq. lia.
Qed.

Lemma retrieved_starts (net : Network) plan got :
  Forall2 (λ c d, d_chunk_id d = chunk_id c ∧ d_start d = start c
                  ∧ net (node_url c) (chunk_id c) = Some (200, d_data d))
    plan got →
  d_start <$> got = start <$> plan.
Proof.
  induction 1 as [|c d plan got (_ & Hs & _) _ IH];
    [done | rewrite !fmap_cons, Hs; by f_equal].
Qed.

(** C1.  Take any run of the coordination service that starts with no file
    and a positive chunk size, any file the service then returns, any
    network on which every chunk of its plan is retrieved with status 200,
    and any order in which the parallel retrievals complete.  [download]
    prints no warning and writes the data of the retrieved chunks
    concatenated in ascending [start] order: the bytes are those of the
    stable sort by [start], which is sorted and a permutation of the
    retrieved chunks, and they do not depend on the completion order. *)
Theorem download_in_ascending_start_order
    dumps st0 history name info (net : Network) completion :
  files (metadata st0) = [] → 0 < chunk_size (metadata st0) →
  get_file_info name (run dumps st0 history) = (FileInfo info, 200) →
  Forall (λ c, ∃ content, net (node_url c) (chunk_id c) = Some (200, content))
    (chunks info) →
  completion ≡ₚ seq 0 (length (chunks info)) →
  ∃ got,
    Forall2 (λ c d, d_chunk_id d = chunk_id c ∧ d_start d = start c
                    ∧ net (node_url c) (chunk_id c) = Some (200, d_data d))
      (chunks info) got
    ∧ Sorted Z.le (d_start <$> sort_by_start got)
    ∧ sort_by_start got ≡ₚ got
    ∧ download net (get_file_info name (run dumps st0 history)) completion
      = Some (Written false (concat (d_data <$> sort_by_start got))).
Proof.
  intros Hfiles Hcs Hinfo Hnet Hcompletion.
  assert (Sorted Z.le (start <$> chunks info)) as Hplan.
  { unfold get_file_info in Hinfo.
    destruct (dict_get name _) as [f|] eqn:Hf; [|discriminate].
    injection Hinfo as ->.
    eapply (MasterProofs.run_plans_ascending dumps history st0); [done | | done].
    intros name' f'. by rewrite Hfiles. }
  destruct (download_in_plan_order net info completion Hnet Hcompletion)
    as (got & Hall & Hwritten).
  exists got. split; [done |].
  split; [apply sort_by_start_sorted |].
  split; [apply sort_by_start_perm |].
  rewrite Hinfo, Hwritten, sort_by_start_id; [done |].
  by rewrite (retrieved_starts net (chunks info) got Hall).
Qed.

End ClientProofs.

(** ** The chunk store of a datanode *)

Module DatanodeProofs.
Import Datanode.

Lemma zero_seconds (z : Z) :
  Qeq_bool (inject_Z z / 1000 / 1000) 0 = (z =? 0).
Proof.
  unfold Qeq_bool, Qdiv, Qmult, Qinv, inject_Z. simpl.
  by rewrite !Z.mul_1_r.
Qed.

Lemma throughput_zero_duration chunk_size t :
  throughput chunk_size (duration_ms t t) = Raise ZeroDivisionError.
Proof.
  unfold throughput, duration_ms, mbind, Py_bind, truediv. simpl.
  by rewrite zero_seconds, Z.sub_diag.
Qed.

Lemma throughput_positive_duration chunk_size t0 t1 :
  t0 ≠ t1 → ∃ th, throughput chunk_size (duration_ms t0 t1) = Ret th.
Proof.
  intros Hne. unfold throughput, duration_ms, mbind, Py_bind, truediv. simpl.
  rewrite zero_seconds. rewrite (proj2 (Z.eqb_neq _ _)) by lia. eauto.
Qed.

Section Store.

Variable NODE_ID : string.

Lemma serve_data_dir st rq :
  data_dir (serve NODE_ID st rq)
  = match rq with
    | Put _ _ _ c data => <[c := data]> (data_dir st)
    | Get _ _ _ _ => data_dir st
    end.
Proof.
  destruct rq as [t0 t1 t2 c data | t0 t1 t2 c]; simpl.
  - unfold store_chunk. by destruct (throughput _ _).
  - unfold retrieve_chunk. destruct (data_dir st !! c); [|done].
    by destruct (throughput _ _).
Qed.

(** The directory holds, under every name, the bytes of the last [Put] of
    that name, or what it held at the start when there was none. *)
Lemma serve_all_lookup history st c :
  data_dir (serve_all NODE_ID st history) !! c
  = match last_put c history with
    | Some data => Some data
    | None => data_dir st !! c
    end.
Proof.
  unfold serve_all. revert st.
  induction history as [|rq rest IH]; intros st; simpl; [done |].
  rewrite IH.
  destruct (last_put c rest); [done |].
  rewrite serve_data_dir.
  destruct rq as [t0 t1 t2 c' data | t0 t1 t2 c']; [|done].
  case_decide as Hc.
  - subst. by rewrite lookup_insert_eq.
  - by rewrite lookup_insert_ne.
Qed.

(** C9.  On a node that started with an empty directory and has served any
    history of requests: [retrieve_chunk] for a chunk id that was never
    stored answers 404 with an error body and no data; for a chunk id that
    was stored, it answers 200 with the bytes of the last store whenever its
    two clock readings differ, and whenever it answers at all the answer is
    200 with exactly those bytes. *)
Theorem retrieve_chunk_not_found_or_stored history t0 t1 t2 c :
  let st := serve_all NODE_ID fresh history in
  match last_put c history with
  | None =>
      retrieve_chunk NODE_ID t0 t1 t2 c st
      = (Ret (Error "Chunk not found", 404), st)
  | Some data =>
      (t0 ≠ t1 →
       (retrieve_chunk NODE_ID t0 t1 t2 c st).1 = Ret (Octets data, 200))
      ∧ (∀ body code,
           (retrieve_chunk NODE_ID t0 t1 t2 c st).1 = Ret (body, code) →
           body = Octets data ∧ code = 200)
  end.
Proof.
  intros st. pose proof (serve_all_lookup history fresh c) as Hdir.
  fold st in Hdir. unfold retrieve_chunk.
  destruct (last_put c history) as [data|]; rewrite Hdir.
  - split.
    + intros Hne.
      destruct (throughput_positive_duration
                  (Z.of_nat (length data)) t0 t1 Hne) as [th ->].
      done.
    + intros body code. destruct (throughput _ _); simpl; [|done].
      by intros [= <- <-].
  - unfold fresh. simpl. by rewrite lookup_empty.
Qed.

End Store.

End DatanodeProofs.

(** ** The theorems on the concrete service *)

Module Scenarios.
Import Master Client.

Local Ltac compute_eq := vm_compute; reflexivity.

(** The plan of the 10000-byte file, as the service computes it. *)
Example upload_plan :
  create_file Fixture.dumps 1730000000123456 1730000000123999
    (Some "f") (Some 10000) Fixture.two_nodes
  = (Ret (Created "1730000000123" Fixture.plan_of_f 4096, 200),
     run Fixture.dumps Fixture.empty_service Fixture.upload).
Proof. compute_eq. Qed.

(** The last chunk is retrieved first, and the file is still written in
    offset order. *)
Example download_last_chunk_first :
  download Fixture.network
    (get_file_info "f" (run Fixture.dumps Fixture.empty_service Fixture.upload))
    [2; 0; 1]%nat
  = Some (Written false [Byte.x01; Byte.x02; Byte.x03]).
Proof. compute_eq. Qed.

Lemma download_in_ascending_start_order_witness :
  files (metadata Fixture.empty_service) = []
  ∧ 0 < chunk_size (metadata Fixture.empty_service)
  ∧ ∃ got,
      Forall2 (λ c d, d_chunk_id d = chunk_id c ∧ d_start d = start c
                      ∧ Fixture.network (node_url c) (chunk_id c)
                        = Some (200, d_data d))
        Fixture.plan_of_f got
      ∧ Sorted Z.le (d_start <$> sort_by_start got)
      ∧ sort_by_start got ≡ₚ got
      ∧ download Fixture.network
          (get_file_info "f"
             (run Fixture.dumps Fixture.empty_service Fixture.upload))
          [2; 0; 1]%nat
        = Some (Written false (concat (d_data <$> sort_by_start got))).
Proof.
  split; [reflexivity |]. split; [reflexivity |].
  apply (ClientProofs.download_in_ascending_start_order
           Fixture.dumps Fixture.empty_service Fixture.upload "f"
           Fixture.record_of_f Fixture.network [2; 0; 1]%nat).
  - reflexivity.
  - reflexivity.
  - vm_compute. reflexivity.
  - repeat constructor; eexists; reflexivity.
  - apply (Permutation_cons_append [0; 1]%nat 2%nat).
Defined.

Lemma restart_forgets_snapshot_nodes :
  let text := Fixture.dumps Fixture.snapshot in
  let loads := Fixture.loads [Fixture.snapshot] in
  ∃ st,
    startup Fixture.dumps loads (Some text) = Ret st
    ∧ "1" ∈ dict_keys (md_datanodes (metadata st))
    ∧ heartbeat Fixture.dumps 1730000010000000 1730000010000001 (Some "1") st
      = (Ret (Error "Unknown node_id", 400), st)
    ∧ create_file Fixture.dumps 1730000020000000 1730000020000001
        (Some "f") (Some 10000) st
      = (Ret (Error "No active datanodes available", 503), st).
Proof.
  exists (mkState Fixture.snapshot [] (Some (Fixture.dumps Fixture.snapshot))).
  split; [compute_eq |]. split; [apply list_elem_of_here |].
  split; compute_eq.
Qed.

Lemma restart_needs_registration_witness :
  let text := Fixture.dumps Fixture.snapshot in
  let loads := Fixture.loads [Fixture.snapshot] in
  let st := mkState Fixture.snapshot [] (Some text) in
  loads text = Some Fixture.snapshot
  ∧ startup Fixture.dumps loads (Some text) = Ret st
  ∧ datanodes st = []
  ∧ heartbeat Fixture.dumps 1730000010000000 1730000010000001 (Some "1") st
    = (Ret (Error "Unknown node_id", 400), st).
Proof.
  intros text loads st.
  assert (loads text = Some Fixture.snapshot) as Hload by compute_eq.
  assert (startup Fixture.dumps loads (Some text) = Ret st) as Hstart
    by compute_eq.
  destruct (MasterProofs.restart_needs_registration
              Fixture.dumps loads text Fixture.snapshot st Hload Hstart)
    as (_ & Hnodes & Hbeat & _).
  split; [exact Hload |]. split; [exact Hstart |]. split; [exact Hnodes |].
  apply Hbeat.
Defined.

Lemma create_file_zero_size_fails :
  datanodes Fixture.two_nodes ≠ []
  ∧ create_file Fixture.dumps 1730000000123456 1730000000123999
      (Some "empty") (Some 0) Fixture.two_nodes
    = (Ret (Error "Missing filename or filesize", 400), Fixture.two_nodes)
  ∧ get_file_info "empty"
      (create_file Fixture.dumps 1730000000123456 1730000000123999
         (Some "empty") (Some 0) Fixture.two_nodes).2
    = (Error "File not found", 404).
Proof. split; [by vm_compute |]. split; compute_eq. Qed.

Lemma register_again_omits_chunk_size :
  let again :=
    register_datanode Fixture.dumps 1730000030000001 1730000030000002
      1730000030000003 1730000030000004 (Some "A") (Some "http://a:8001")
      Fixture.two_nodes in
  is_Some (dict_get "A" (datanodes Fixture.two_nodes))
  ∧ again.1 = Ret (Status "Node with id A is registered!", 200)
  ∧ ∀ chunk_size, again.1 ≠ Ret (Registered chunk_size, 200).
Proof.
  intros again.
  assert (again.1 = Ret (Status "Node with id A is registered!", 200)) as H
    by compute_eq.
  split; [vm_compute; eauto |]. split; [exact H |].
  intros cs. rewrite H. discriminate.
Qed.

Lemma register_again_changes_nothing_witness :
  is_Some (dict_get "A" (datanodes Fixture.two_nodes))
  ∧ register_datanode Fixture.dumps 1730000030000001 1730000030000002
      1730000030000003 1730000030000004 (Some "A") (Some "http://a:8001")
      Fixture.two_nodes
    = (Ret (Status "Node with id A is registered!", 200), Fixture.two_nodes).
Proof.
  assert (is_Some (dict_get "A" (datanodes Fixture.two_nodes))) as H
    by (vm_compute; eauto).
  split; [exact H |].
  apply (MasterProofs.register_again_changes_nothing
           Fixture.dumps _ _ _ _ "A" _ Fixture.two_nodes H).
Defined.

Lemma save_metadata_is_not_atomic :
  let old := Some (Fixture.dumps default_metadata) in
  let seen := file_at Fixture.dumps Opened Fixture.snapshot old in
  seen = Some ""
  ∧ seen ≠ old
  ∧ seen ≠ Some (Fixture.dumps Fixture.snapshot)
  ∧ startup Fixture.dumps
      (Fixture.loads [default_metadata; Fixture.snapshot]) seen
    = Raise JSONDecodeError.
Proof.
  intros old seen. split; [reflexivity |].
  split; [by vm_compute |]. split; [by vm_compute |]. compute_eq.
Qed.

Lemma save_metadata_overwrites_in_place_witness :
  Opened ≠ BeforeOpen
  ∧ ∃ n,
      file_at Fixture.dumps Opened Fixture.snapshot
        (Some (Fixture.dumps default_metadata))
      = Some (String.substring 0 n (Fixture.dumps Fixture.snapshot)).
Proof.
  split; [discriminate |].
  destruct (MasterProofs.save_metadata_overwrites_in_place
              Fixture.dumps Fixture.snapshot
              (Some (Fixture.dumps default_metadata)))
    as (_ & _ & Hprefix & _).
  destruct (Hprefix Opened ltac:(discriminate)) as (n & Hn & _).
  by exists n.
Defined.

Lemma create_file_plan_tiles_witness :
  "f" ≠ "" ∧ 0 < 10000 ∧ 0 < chunk_size (metadata Fixture.two_nodes)
  ∧ datanodes Fixture.two_nodes ≠ []
  ∧ ∃ file_id plan st',
      create_file Fixture.dumps 1730000000123456 1730000000123999
        (Some "f") (Some 10000) Fixture.two_nodes
      = (Ret (Created file_id plan 4096, 200), st')
      ∧ total_size plan = 10000 ∧ tiles 0 10000 plan.
Proof.
  assert (0 < chunk_size (metadata Fixture.two_nodes)) as Hcs by reflexivity.
  assert (datanodes Fixture.two_nodes ≠ []) as Hnodes by (by vm_compute).
  split; [discriminate |]. split; [lia |]. split; [exact Hcs |].
  split; [exact Hnodes |].
  destruct (MasterProofs.create_file_plan_tiles
              Fixture.dumps 1730000000123456 1730000000123999 "f" 10000
              Fixture.two_nodes ltac:(discriminate) ltac:(lia) Hcs Hnodes)
    as (file_id & plan & st' & Hcreate & _ & _ & _ & Htotal & Htiles).
  by exists file_id, plan, st'.
Defined.

Lemma round_robin_fair_witness :
  NoDup (dict_keys (datanodes Fixture.two_nodes))
  ∧ "A" ∈ dict_keys (datanodes Fixture.two_nodes)
  ∧ (assigned "A" Fixture.plan_of_f = 3 `div` 2
     ∨ assigned "A" Fixture.plan_of_f = (3 + 2 - 1) `div` 2)%nat.
Proof.
  assert (NoDup (dict_keys (datanodes Fixture.two_nodes))) as Hnodup.
  { apply (bool_decide_unpack _). by vm_compute. }
  assert ("A" ∈ dict_keys (datanodes Fixture.two_nodes)) as HA
    by (vm_compute; apply list_elem_of_here).
  split; [exact Hnodup |]. split; [exact HA |].
  apply (MasterProofs.round_robin_fair
           Fixture.dumps 1730000000123456 1730000000123999
           (Some "f") (Some 10000) Fixture.two_nodes
           "1730000000123" Fixture.plan_of_f 4096
           (run Fixture.dumps Fixture.empty_service Fixture.upload)
           Hnodup upload_plan "A" HA).
Defined.

Lemma create_file_without_nodes_zero_size :
  datanodes Fixture.empty_service = []
  ∧ create_file Fixture.dumps 1730000000123456 1730000000123999
      (Some "f") (Some 0) Fixture.empty_service
    = (Ret (Error "Missing filename or filesize", 400), Fixture.empty_service)
  ∧ (create_file Fixture.dumps 1730000000123456 1730000000123999
       (Some "f") (Some 0) Fixture.empty_service).1
    ≠ Ret (Error "No active datanodes available", 503).
Proof. split; [reflexivity |]. split; [compute_eq | by vm_compute]. Qed.

Lemma create_file_no_nodes_witness :
  datanodes Fixture.empty_service = []
  ∧ truthy_str (Some "f") = true ∧ truthy_int (Some 10000) = true
  ∧ chunk_size (metadata Fixture.empty_service) ≠ 0
  ∧ create_file Fixture.dumps 1730000000123456 1730000000123999
      (Some "f") (Some 10000) Fixture.empty_service
    = (Ret (Error "No active datanodes available", 503),
       Fixture.empty_service)
  ∧ (create_file Fixture.dumps 1730000000123456 1730000000123999
       None (Some 10000) Fixture.empty_service).1
    = Ret (Error "Missing filename or filesize", 400).
Proof.
  split; [reflexivity |]. split; [reflexivity |]. split; [reflexivity |].
  split; [discriminate |].
  destruct (MasterProofs.create_file_no_nodes
              Fixture.dumps 1730000000123456 1730000000123999
              (Some "f") (Some 10000) Fixture.empty_service eq_refl)
    as (Hstate & _ & _ & _ & Hrefused & _).
  destruct (MasterProofs.create_file_no_nodes
              Fixture.dumps 1730000000123456 1730000000123999
              None (Some 10000) Fixture.empty_service eq_refl)
    as (_ & _ & _ & Hmissing & _).
  split; [|apply Hmissing; by left].
  apply injective_projections; [|exact Hstate].
  apply Hrefused; [reflexivity | reflexivity | discriminate].
Defined.

Lemma retrieve_chunk_witness :
  70 ≠ 80
  ∧ (Datanode.retrieve_chunk "1" 70 80 90 "c1"
       (Datanode.serve_all "1" Datanode.fresh Fixture.node_history)).1
    = Ret (Datanode.Octets [Byte.x41; Byte.x42; Byte.x43], 200).
Proof.
  split; [lia |].
  apply (DatanodeProofs.retrieve_chunk_not_found_or_stored
           "1" Fixture.node_history 70 80 90 "c1").
  lia.
Defined.



End Scenarios.

(** * Further properties of the code *)

(** ** The coordination service *)

Module MasterMore.
Import Master MasterProofs.

Section Handlers.

Variable dumps : Metadata → string.

(** X1.  A first registration with a non-empty id and address is answered
    200 with the chunk size; the node is appended after the nodes already
    registered, so the placement order of the others is kept; its record
    is stored in the registry and in the metadata, the other records and
    the files are untouched, and the snapshot file holds the new
    metadata. *)
Theorem register_appends_node t1 t2 t3 t4 id u st :
  id ≠ "" → u ≠ "" → dict_get id (datanodes st) = None →
  let r := register_datanode dumps t1 t2 t3 t4 (Some id) (Some u) st in
  r.1 = Ret (Registered (chunk_size (metadata st)), 200)
  ∧ dict_keys (datanodes r.2) = (dict_keys (datanodes st) ++ [id])%list
  ∧ dict_get id (datanodes r.2) = Some (mkNode u t1 t2)
  ∧ dict_get id (md_datanodes (metadata r.2)) = Some (mkNode u t3 t4)
  ∧ (∀ id', id' ≠ id →
       dict_get id' (datanodes r.2) = dict_get id' (datanodes st)
       ∧ dict_get id' (md_datanodes (metadata r.2))
         = dict_get id' (md_datanodes (metadata st)))
  ∧ files (metadata r.2) = files (metadata st)
  ∧ chunk_size (metadata r.2) = chunk_size (metadata st)
  ∧ snapshot_in_sync dumps r.2.
Proof.
  intros Hid Hu Hnew r. unfold r.
  rewrite register_new_node by done. simpl.
  split; [done |]. split.
  { rewrite dict_keys_set. rewrite decide_False; [done |].
    rewrite dict_get_keys, Hnew. by intros [? ?]. }
  split; [apply dict_get_set_eq |]. split; [apply dict_get_set_eq |].
  split; [|done].
  intros id' Hne. by rewrite !dict_get_set_ne.
Qed.

(** X2.  A heartbeat of a node that has a record in the registry and in
    the metadata is answered 200; it sets [last_heartbeat] to the first
    clock reading in the registry and to the second in the metadata, keeps
    [url] and [registered_at], leaves every other record, the order of the
    registry and the files as they were, and saves the snapshot. *)
Theorem heartbeat_updates_last_heartbeat t1 t2 id st n m :
  id ≠ "" → dict_get id (datanodes st) = Some n →
  dict_get id (md_datanodes (metadata st)) = Some m →
  let r := heartbeat dumps t1 t2 (Some id) st in
  r.1 = Ret (Status "alive", 200)
  ∧ dict_get id (datanodes r.2)
    = Some (mkNode (url n) (registered_at n) t1)
  ∧ dict_get id (md_datanodes (metadata r.2))
    = Some (mkNode (url m) (registered_at m) t2)
  ∧ (∀ id', id' ≠ id →
       dict_get id' (datanodes r.2) = dict_get id' (datanodes st)
       ∧ dict_get id' (md_datanodes (metadata r.2))
         = dict_get id' (md_datanodes (metadata st)))
  ∧ dict_keys (datanodes r.2) = dict_keys (datanodes st)
  ∧ files (metadata r.2) = files (metadata st)
  ∧ snapshot_in_sync dumps r.2.
Proof.
  intros Hid Hn Hm r. unfold r, heartbeat. simpl.
  rewrite bool_decide_eq_false_2 by done.
  replace (dict_in id (datanodes st)) with true
    by (symmetry; apply dict_in_true; eauto).
  simpl. rewrite Hn, Hm. simpl.
  split; [done |]. split; [apply dict_get_set_eq |].
  split; [apply dict_get_set_eq |]. split.
  { intros id' Hne. by rewrite !dict_get_set_ne. }
  split; [|done].
  rewrite dict_keys_set. rewrite decide_True; [done |].
  apply dict_get_keys. eauto.
Qed.

End Handlers.


(** *** What a run keeps *)

Section Runs.

Variable dumps : Metadata → string.

Lemma is_node_registred_false node_id nodes :
  (is_node_registred node_id nodes).1 = false →
  (node_id ≫= λ k, dict_get k nodes) = None.
Proof.
  unfold is_node_registred. by destruct (node_id ≫= _).
Qed.

(** The state after [register_datanode], case by case. *)
Lemma register_datanode_state t1 t2 t3 t4 node_id node_url st :
  (register_datanode dumps t1 t2 t3 t4 node_id node_url st).2 = st
  ∨ ∃ id u,
      node_id = Some id ∧ node_url = Some u ∧ id ≠ "" ∧ u ≠ ""
      ∧ dict_get id (datanodes st) = None
      ∧ (register_datanode dumps t1 t2 t3 t4 node_id node_url st).2
        = save_metadata dumps
            (mkState
               (set_md_datanodes
                  (dict_set id (mkNode u t3 t4) (md_datanodes (metadata st)))
                  (metadata st))
               (dict_set id (mkNode u t1 t2) (datanodes st))
               (metadata_file st)).
Proof.
  destruct (is_node_registred node_id (datanodes st)) as [exists_ message]
    eqn:Hreg.
  destruct exists_.
  { left. unfold register_datanode. by rewrite Hreg. }
  pose proof (is_node_registred_false node_id (datanodes st)) as Hnew.
  rewrite Hreg in Hnew. specialize (Hnew eq_refl).
  destruct node_id as [id|], node_url as [u|];
    try (left; unfold register_datanode; rewrite Hreg; simpl;
         by rewrite ?orb_true_r).
  destruct (decide (id = "")) as [->|Hid].
  { left. unfold register_datanode. by rewrite Hreg. }
  destruct (decide (u = "")) as [->|Hu].
  { left. unfold register_datanode. rewrite Hreg. simpl.
    by rewrite orb_true_r. }
  right. exists id, u. repeat split; try done.
  by rewrite register_new_node.
Qed.

(** The state after [heartbeat], case by case. *)
Lemma heartbeat_state t1 t2 node_id st :
  (heartbeat dumps t1 t2 node_id st).2 = st
  ∨ ∃ id n,
      node_id = Some id ∧ dict_get id (datanodes st) = Some n
      ∧ let registry := dict_set id (set_last_heartbeat t1 n) (datanodes st) in
        match dict_get id (md_datanodes (metadata st)) with
        | None =>
            heartbeat dumps t1 t2 node_id st
            = (Raise KeyError, mkState (metadata st) registry (metadata_file st))
        | Some m =>
            heartbeat dumps t1 t2 node_id st
            = (Ret (Status "alive", 200),
               save_metadata dumps
                 (mkState
                    (set_md_datanodes
                       (dict_set id (set_last_heartbeat t2 m)
                          (md_datanodes (metadata st)))
                       (metadata st))
                    registry (metadata_file st)))
        end.
Proof.
  unfold heartbeat. destruct (_ || _) eqn:Hguard; [by left |].
  apply orb_false_elim in Hguard as [Hid _].
  destruct node_id as [id|]; [|done]. simpl.
  destruct (dict_get id (datanodes st)) as [n|] eqn:Hn; [|by left].
  right. exists id, n. split; [done |]. split; [done |]. simpl.
  by destruct (dict_get id (md_datanodes (metadata st))).
Qed.

Lemma create_file_registry t1 t2 filename filesize st :
  datanodes (create_file dumps t1 t2 filename filesize st).2 = datanodes st
  ∧ md_datanodes (metadata (create_file dumps t1 t2 filename filesize st).2)
    = md_datanodes (metadata st).
Proof.
  destruct (create_file_state dumps t1 t2 filename filesize st)
    as [-> | (name & fsz & plan & _ & ->)]; done.
Qed.

Lemma handle_keeps_node rq st id n :
  dict_get id (datanodes st) = Some n →
  ∃ n', dict_get id (datanodes (handle dumps rq st).2) = Some n'
        ∧ url n' = url n ∧ registered_at n' = registered_at n.
Proof.
  intros Hn.
  destruct rq as [t1 t2 t3 t4 node_id node_url | t1 t2 node_id
                 | t1 t2 filename filesize | filename | | data]; simpl;
    eauto.
  - destruct (register_datanode_state t1 t2 t3 t4 node_id node_url st)
      as [-> | (id0 & u & _ & _ & _ & _ & Hnew & ->)]; [eauto |].
    simpl. rewrite dict_get_set_ne by congruence. eauto.
  - destruct (heartbeat_state t1 t2 node_id st)
      as [-> | (id0 & n0 & _ & Hn0 & Hbeat)]; [eauto |].
    simpl in Hbeat.
    assert (∃ n', dict_get id (dict_set id0 (set_last_heartbeat t1 n0)
                                 (datanodes st)) = Some n'
                  ∧ url n' = url n ∧ registered_at n' = registered_at n)
      as Hkept.
    { destruct (decide (id = id0)) as [->|Hne].
      - rewrite dict_get_set_eq. eexists. split; [done |].
        rewrite Hn in Hn0. by injection Hn0 as ->.
      - rewrite dict_get_set_ne by done. eauto. }
    destruct (dict_get id0 (md_datanodes (metadata st))); by rewrite Hbeat.
  - destruct (create_file_registry t1 t2 filename filesize st) as [-> _].
    eauto.
Qed.

Lemma handle_keeps_file rq st name f :
  dict_get name (files (metadata st)) = Some f →
  is_Some (dict_get name (files (metadata (handle dumps rq st).2))).
Proof.
  intros Hf.
  destruct rq as [t1 t2 t3 t4 node_id node_url | t1 t2 node_id
                 | t1 t2 filename filesize | filename | | data]; simpl;
    eauto.
  - destruct (register_datanode_files dumps t1 t2 t3 t4 node_id node_url st)
      as [-> _]. eauto.
  - destruct (heartbeat_files dumps t1 t2 node_id st) as [-> _]. eauto.
  - destruct (create_file_state dumps t1 t2 filename filesize st)
      as [-> | (name' & fsz & plan & _ & ->)]; [eauto |].
    simpl. destruct (decide (name = name')) as [->|Hne].
    + rewrite dict_get_set_eq. eauto.
    + rewrite dict_get_set_ne by done. eauto.
Qed.

Lemma handle_chunk_size rq st :
  chunk_size (metadata (handle dumps rq st).2) = chunk_size (metadata st).
Proof.
  destruct rq as [t1 t2 t3 t4 node_id node_url | t1 t2 node_id
                 | t1 t2 filename filesize | filename | | data]; simpl;
    try done.
  - by destruct (register_datanode_files dumps t1 t2 t3 t4 node_id node_url st).
  - by destruct (heartbeat_files dumps t1 t2 node_id st).
  - destruct (create_file_state dumps t1 t2 filename filesize st)
      as [-> | (name' & fsz & plan & _ & ->)]; done.
Qed.

Lemma run_chunk_size history st :
  chunk_size (metadata (run dumps st history)) = chunk_size (metadata st).
Proof.
  revert st. induction history as [|rq history IH]; intros st; [done |].
  simpl. by rewrite IH, handle_chunk_size.
Qed.

(** X3.  Nothing is removed or re-addressed in a run: a node of the
    registry stays in it with the [url] and [registered_at] of its first
    registration, whatever registrations and heartbeats follow; a file
    name stays in the files mapping; and the chunk size never changes. *)
Theorem run_keeps_nodes_and_files history st :
  (∀ id n, dict_get id (datanodes st) = Some n →
     ∃ n', dict_get id (datanodes (run dumps st history)) = Some n'
           ∧ url n' = url n ∧ registered_at n' = registered_at n)
  ∧ (∀ name f, dict_get name (files (metadata st)) = Some f →
       is_Some (dict_get name (files (metadata (run dumps st history)))))
  ∧ chunk_size (metadata (run dumps st history)) = chunk_size (metadata st).
Proof.
  revert st. induction history as [|rq history IH]; intros st; simpl.
  - split; [eauto |]. split; [eauto | done].
  - destruct (IH (handle dumps rq st).2) as (Hnodes & Hfiles & Hcs).
    split; [|split].
    + intros id n Hn.
      destruct (handle_keeps_node rq st id n Hn) as (n1 & Hn1 & Hu & Hr).
      destruct (Hnodes id n1 Hn1) as (n' & Hn' & Hu' & Hr').
      exists n'. split; [done |]. split; congruence.
    + intros name f Hf.
      destruct (handle_keeps_file rq st name f Hf) as [f1 Hf1].
      by eapply Hfiles.
    + by rewrite Hcs, handle_chunk_size.
Qed.

End Runs.

(** *** The invariants of a run *)

Section Invariants.

Variable dumps : Metadata → string.

Lemma handle_registry_in_metadata rq st :
  registry_in_metadata st → registry_in_metadata (handle dumps rq st).2.
Proof.
  intros Hinv. unfold registry_in_metadata in *.
  destruct rq as [t1 t2 t3 t4 node_id node_url | t1 t2 node_id
                 | t1 t2 filename filesize | filename | | data]; simpl;
    try done.
  - destruct (register_datanode_state dumps t1 t2 t3 t4 node_id node_url st)
      as [-> | (id0 & u & _ & _ & _ & _ & Hnew & ->)]; [done |].
    simpl. intros id n. destruct (decide (id = id0)) as [->|Hne].
    + rewrite !dict_get_set_eq. intros [= <-]. eauto.
    + rewrite !dict_get_set_ne by done. apply Hinv.
  - destruct (heartbeat_state dumps t1 t2 node_id st)
      as [-> | (id0 & n0 & _ & Hn0 & Hbeat)]; [done |].
    simpl in Hbeat. destruct (Hinv id0 n0 Hn0) as (m0 & Hm0 & Hurl).
    rewrite Hm0 in Hbeat. rewrite Hbeat. simpl.
    intros id n. destruct (decide (id = id0)) as [->|Hne].
    + rewrite !dict_get_set_eq. intros [= <-]. eauto.
    + rewrite !dict_get_set_ne by done. apply Hinv.
  - destruct (create_file_registry dumps t1 t2 filename filesize st)
      as [-> ->]. done.
Qed.

Lemma as_number_raises v e : as_number v = Raise e → e = TypeError.
Proof. destruct v; simpl; congruence. Qed.

Lemma throughput_of_numbers b d qb qd :
  as_number b = Ret qb → as_number d = Ret qd → truthy d = true →
  ∃ th, Master.throughput b d = Ret th.
Proof.
  intros Hb Hd Htruthy. unfold Master.throughput, mbind, Py_bind.
  rewrite Hb. simpl. rewrite Hd.
  unfold truediv.
  rewrite (Qeq_bool_div_1000 qd (truthy_number_nonzero d qd Htruthy Hd)).
  eauto.
Qed.

Lemma throughput_of_other b d :
  (∃ e, as_number b = Raise e) ∨ (∃ e, as_number d = Raise e) →
  Master.throughput b d = Raise TypeError.
Proof.
  unfold Master.throughput, mbind, Py_bind.
  destruct (as_number b) as [qb|e1] eqn:Hb.
  - intros [[e He] | [e He]]; [discriminate |]. simpl. rewrite He.
    by rewrite (as_number_raises d e He).
  - intros _. by rewrite (as_number_raises b e1 Hb).
Qed.

(** X4.  The guard of [record_stats] tests truthiness, not type: a report
    whose four fields are truthy and whose [bytes] is not a number (a
    non-empty string, list or object) makes the handler raise [TypeError]
    in the first division, which Flask answers with 500, whatever
    [duration_ms] is. *)
Theorem record_stats_type_error data :
  truthy (json_get "node_id" data) = true →
  truthy (json_get "operation" data) = true →
  truthy (json_get "bytes" data) = true →
  truthy (json_get "duration_ms" data) = true →
  (∀ q, json_get "bytes" data ≠ JNum q) →
  (∀ b, json_get "bytes" data ≠ JBool b) →
  record_stats data = Raise TypeError
  ∧ record_stats data ≠ Ret (Error "Missing required fields", 400).
Proof.
  intros Hn Ho Hb Hd Hnum Hbool.
  assert (record_stats data = Raise TypeError) as Hraise; [|by rewrite Hraise].
  unfold record_stats. rewrite Hn, Ho, Hb, Hd. simpl.
  rewrite throughput_of_other; [done |]. left.
  destruct (json_get "bytes" data) as [|b|q|s|l|l] eqn:Hbytes; simpl; eauto.
  - by destruct (Hbool b).
  - by destruct (Hnum q).
Qed.

Lemma heartbeat_raises t1 t2 node_id st e :
  (heartbeat dumps t1 t2 node_id st).1 = Raise e →
  ∃ id n, dict_get id (datanodes st) = Some n
          ∧ dict_get id (md_datanodes (metadata st)) = None.
Proof.
  unfold heartbeat. destruct (_ || _) eqn:Hguard; [discriminate |].
  apply orb_false_elim in Hguard as [_ Hin].
  apply negb_false_iff, dict_in_true in Hin as [n Hn].
  rewrite Hn. simpl.
  destruct (dict_get _ (md_datanodes (metadata st))) eqn:Hm;
    [discriminate | eauto].
Qed.

(** X5.  In a run that starts from a state in which every node of the
    registry has a record in the metadata under the same address (the
    state after start-up is one), this stays so.  Hence, on bodies whose
    fields have the types of the wire contract, the handlers of
    [/register], [/heartbeat], [/file] and [/files] raise nothing, the
    lookup [metadata['datanodes'][node_id]] of [heartbeat] included, but
    for [create_file], which raises [ZeroDivisionError] when the chunk size
    is 0. *)
Theorem run_raises_no_lookup_error history st rq e :
  registry_in_metadata st →
  (∀ data, rq ≠ PostStats data) →
  registry_in_metadata (run dumps st history)
  ∧ ((handle dumps rq (run dumps st history)).1 = Raise e →
     e = ZeroDivisionError ∧ chunk_size (metadata st) = 0
     ∧ ∃ t1 t2 filename filesize,
         rq = PostFile t1 t2 filename filesize
         ∧ truthy_str filename = true ∧ truthy_int filesize = true).
Proof.
  intros Hinv Hrq.
  assert (registry_in_metadata (run dumps st history)) as Hrun.
  { revert st Hinv. induction history as [|rq' history IH]; intros st Hinv;
      [done |].
    simpl. by apply IH, handle_registry_in_metadata. }
  split; [done |].
  pose proof (run_chunk_size dumps history st) as Hcs.
  set (s := run dumps st history) in *.
  destruct rq as [t1 t2 t3 t4 node_id node_url | t1 t2 node_id
                 | t1 t2 filename filesize | filename | | data]; simpl;
    try discriminate.
  - unfold register_datanode.
    destruct (is_node_registred _ _) as [[] message]; [discriminate |].
    by destruct (_ || _).
  - intros Hraise.
    destruct (heartbeat_raises t1 t2 node_id s e Hraise)
      as (id0 & n0 & Hn0 & Hm0).
    destruct (Hrun id0 n0 Hn0) as (m0 & Hm0' & _). congruence.
  - unfold create_file.
    destruct (truthy_str filename) eqn:Hname; [|discriminate].
    destruct (truthy_int filesize) eqn:Hsize; [|discriminate]. simpl.
    destruct (chunk_size (metadata s) =? 0) eqn:Hzero.
    + intros [= <-]. apply Z.eqb_eq in Hzero.
      split; [done |]. split; [congruence |].
      by exists t1, t2, filename, filesize.
    + case_bool_decide as Hnodes; [discriminate |].
      rewrite dict_keys_nil in Hnodes.
      destruct (plan_total (datanodes s) (pretty (millis t1))
                  (chunk_size (metadata s)) (default 0 filesize)
                  ((default 0 filesize + chunk_size (metadata s) - 1)
                     `div` chunk_size (metadata s)) Hnodes) as [plan ->].
      discriminate.
  - by destruct (Hrq data).
Qed.

(** X6.  Once the snapshot file holds the text of the metadata (as it does
    after a start without a snapshot), it does so after every request,
    whether the handler answers, refuses or raises. *)
Theorem run_snapshot_in_sync history st :
  snapshot_in_sync dumps st → snapshot_in_sync dumps (run dumps st history).
Proof.
  revert st. induction history as [|rq history IH]; intros st Hsync; [done |].
  simpl. apply IH. unfold snapshot_in_sync in *.
  destruct rq as [t1 t2 t3 t4 node_id node_url | t1 t2 node_id
                 | t1 t2 filename filesize | filename | | data]; simpl;
    try done.
  - destruct (register_datanode_state dumps t1 t2 t3 t4 node_id node_url st)
      as [-> | (id0 & u & _ & _ & _ & _ & _ & ->)]; done.
  - destruct (heartbeat_state dumps t1 t2 node_id st)
      as [-> | (id0 & n0 & _ & _ & Hbeat)]; [done |].
    simpl in Hbeat.
    destruct (dict_get id0 (md_datanodes (metadata st))); by rewrite Hbeat.
  - destruct (create_file_state dumps t1 t2 filename filesize st)
      as [-> | (name & fsz & plan & _ & ->)]; done.
Qed.

End Invariants.

(** *** Files and plans *)

Section Files.

Variable dumps : Metadata → string.

Lemma dict_get_fmap {V W} (g : V → W) k (d : dict V) :
  dict_get k (prod_map id g <$> d) = g <$> dict_get k d.
Proof.
  induction d as [|[k' v] d IH]; simpl; [done |]. by case_decide.
Qed.

(** X7.  After [create_file] has answered 200, [get_file_info] returns for
    the file name the record just made (file id, size, second clock
    reading, plan), whatever record the name had before; [list_files]
    lists the name with that size and time; every other name reads as
    before in both; and the registry is unchanged. *)
Theorem create_file_then_get_file_info
    t1 t2 filename filesize st file_id plan cs st' :
  create_file dumps t1 t2 filename filesize st
    = (Ret (Created file_id plan cs, 200), st') →
  ∃ name fsz listing,
    filename = Some name ∧ filesize = Some fsz
    ∧ get_file_info name st' = (FileInfo (mkFile file_id fsz t2 plan), 200)
    ∧ list_files st' = (FileList listing, 200)
    ∧ dict_get name listing = Some (fsz, t2)
    ∧ (∀ name', name' ≠ name →
         get_file_info name' st' = get_file_info name' st
         ∧ dict_get name' listing
           = (λ f, (file_size f, created_at f))
               <$> dict_get name' (files (metadata st)))
    ∧ datanodes st' = datanodes st.
Proof.
  intros Hcreate.
  apply create_file_inv in Hcreate
    as (name & fsz & -> & -> & -> & -> & _ & ->).
  exists name, fsz. eexists. split; [done |]. split; [done |].
  unfold get_file_info, list_files. simpl.
  split; [by rewrite dict_get_set_eq |]. split; [done |].
  rewrite !dict_get_fmap. split; [by rewrite dict_get_set_eq |].
  split; [|done].
  intros name' Hne. by rewrite dict_get_fmap, !dict_get_set_ne.
Qed.

(** X8.  In the plan [create_file] returns, the chunk ids are pairwise
    distinct, and every chunk is assigned to a node of the registry, at
    the address the registry holds for that node. *)
Theorem create_file_plan_consistent
    t1 t2 filename filesize st file_id plan cs st' :
  create_file dumps t1 t2 filename filesize st
    = (Ret (Created file_id plan cs, 200), st') →
  NoDup (chunk_id <$> plan)
  ∧ Forall (λ c, ∃ n, dict_get (node_id c) (datanodes st) = Some n
                      ∧ node_url c = url n) plan.
Proof.
  intros Hcreate.
  apply create_file_inv in Hcreate
    as (name & fsz & _ & _ & _ & _ & Hplan & _).
  apply plan_placed in Hplan as [_ Hplaced]. split.
  - apply NoDup_alt. intros i j x.
    rewrite !list_lookup_fmap.
    destruct (plan !! i) as [ci|] eqn:Hi; [|done].
    destruct (plan !! j) as [cj|] eqn:Hj; [|done].
    simpl. intros [= <-] [= Hsame].
    destruct (Hplaced i ci Hi) as (Hci & _).
    destruct (Hplaced j cj Hj) as (Hcj & _).
    rewrite Hci, Hcj in Hsame.
    apply (inj (String.app file_id)), (inj (String.app "_")) in Hsame.
    apply (inj pretty) in Hsame. lia.
  - apply Forall_lookup. intros k c Hk.
    destruct (Hplaced k c Hk) as (_ & _ & Hurl & _).
    destruct (dict_get (node_id c) (datanodes st)) as [n|]; [|done].
    exists n. split; [done |]. simpl in Hurl. congruence.
Qed.

(** X9.  With a positive chunk size and a registered node, [create_file]
    accepts a negative [filesize]: it answers 200 with an empty plan and
    stores a record of that negative size.  The plan is empty only then:
    for a positive [filesize] it has at least one chunk. *)
Theorem create_file_negative_size t1 t2 name fsz st :
  name ≠ "" → fsz ≠ 0 → 0 < chunk_size (metadata st) → datanodes st ≠ [] →
  ∃ plan,
    create_file dumps t1 t2 (Some name) (Some fsz) st
    = (Ret (Created (pretty (millis t1)) plan (chunk_size (metadata st)), 200),
       committed dumps t1 t2 name fsz plan st)
    ∧ get_file_info name (committed dumps t1 t2 name fsz plan st)
      = (FileInfo (mkFile (pretty (millis t1)) fsz t2 plan), 200)
    ∧ (plan = [] ↔ fsz < 0).
Proof.
  intros Hname Hfsz Hcs Hnodes.
  destruct (create_file_succeeds dumps t1 t2 name fsz st)
    as (plan & Hplan & Hcreate); [done | done | lia | done |].
  exists plan. split; [done |]. split.
  { unfold get_file_info. simpl. by rewrite dict_get_set_eq. }
  apply plan_placed in Hplan as [Hlen _].
  pose proof (ceil_div_bounds fsz (chunk_size (metadata st)) Hcs) as Hn.
  simpl in Hn. split.
  - intros ->. simpl in Hlen. nia.
  - intros Hneg. apply length_zero_iff_nil. nia.
Qed.

End Files.

(** *** Chunk ids across files *)

Lemma pretty_N_char_not_underscore x : pretty_N_char x ≠ "_"%char.
Proof. unfold pretty_N_char. by repeat case_match. Qed.

Lemma pretty_N_go_no_underscore x s :
  ¬ has_underscore s → ¬ has_underscore (pretty_N_go x s).
Proof.
  revert s. induction (N.lt_wf_0 x) as [x _ IH]; intros s Hs.
  destruct (decide (x = 0)%N) as [->|Hx].
  - by rewrite pretty_N_go_0.
  - rewrite pretty_N_go_step by lia. apply IH.
    + apply N.div_lt; lia.
    + simpl. intros [Hc|Hrest]; [|done].
      by apply (pretty_N_char_not_underscore (x `mod` 10)%N).
Qed.

Lemma pretty_Z_no_underscore (z : Z) : ¬ has_underscore (pretty z).
Proof.
  assert (∀ x : N, ¬ has_underscore (pretty x)) as HN.
  { intros x. unfold pretty, pretty_N.
    destruct (decide (x = 0%N)); [intros [H|[]]; inversion H |].
    apply pretty_N_go_no_underscore. intros []. }
  assert (∀ p : positive, ¬ has_underscore (pretty p)) as Hpos.
  { intros p. apply (HN (N.pos p)). }
  destruct z as [|p|p]; unfold pretty, pretty_Z.
  - intros [H|[]]. inversion H.
  - apply Hpos.
  - intros [H|H]; [inversion H |]. by eapply Hpos.
Qed.

Lemma chunk_id_parts s1 s2 t1 t2 :
  ¬ has_underscore s1 → ¬ has_underscore s2 →
  s1 +:+ "_" +:+ t1 = s2 +:+ "_" +:+ t2 → s1 = s2 ∧ t1 = t2.
Proof.
  revert s2. induction s1 as [|a s1 IH]; intros [|b s2] H1 H2; simpl in *.
  - intros [= Ht]. by subst.
  - intros [= Hb _]. destruct H2. by left.
  - intros [= Ha _]. destruct H1. by left.
  - intros [= Hab Hrest]. subst b.
    destruct (IH s2) as [Hs Ht]; [tauto | tauto | done |]. by subst.
Qed.

(** X10.  Two plans made at clock readings of different milliseconds share
    no chunk id; two plans made within the same millisecond have the same
    file id and give the chunks of the same ordinal the same chunk id. *)
Theorem chunk_ids_across_files dumps
    ta ta' fa sa sta ida plana csa sta'
    tb tb' fb sb stb idb planb csb stb' :
  create_file dumps ta ta' fa sa sta
    = (Ret (Created ida plana csa, 200), sta') →
  create_file dumps tb tb' fb sb stb
    = (Ret (Created idb planb csb, 200), stb') →
  (millis ta ≠ millis tb →
   ∀ ca cb, ca ∈ plana → cb ∈ planb → chunk_id ca ≠ chunk_id cb)
  ∧ (millis ta = millis tb →
     ida = idb
     ∧ ∀ k ca cb, plana !! k = Some ca → planb !! k = Some cb →
         chunk_id ca = chunk_id cb).
Proof.
  intros Ha Hb.
  apply create_file_inv in Ha as (? & ? & _ & _ & -> & _ & Hplana & _).
  apply create_file_inv in Hb as (? & ? & _ & _ & -> & _ & Hplanb & _).
  apply plan_placed in Hplana as [_ Hplaceda].
  apply plan_placed in Hplanb as [_ Hplacedb].
  split.
  - intros Hms ca cb Hca Hcb Hsame.
    apply list_elem_of_lookup in Hca as [i Hi], Hcb as [j Hj].
    destruct (Hplaceda i ca Hi) as (Hida & _).
    destruct (Hplacedb j cb Hj) as (Hidb & _).
    rewrite Hida, Hidb in Hsame.
    apply chunk_id_parts in Hsame as [Hfid _];
      [| apply pretty_Z_no_underscore..].
    by apply (inj pretty) in Hfid.
  - intros Hms. rewrite Hms. split; [done |].
    intros k ca cb Hka Hkb.
    destruct (Hplaceda k ca Hka) as (-> & _).
    destruct (Hplacedb k cb Hkb) as (-> & _).
    by rewrite Hms.
Qed.

(** *** Every stored record *)

Section Records.

Variable dumps : Metadata → string.

Lemma placed_plan_well_planned nodes file_id cs fsz t (plan : list Chunk) :
  0 < cs → fsz ≠ 0 →
  length plan = Z.to_nat ((fsz + cs - 1) `div` cs) →
  (∀ (k : nat) c, plan !! k = Some c →
     placed nodes file_id cs fsz (Z.of_nat k) c) →
  well_planned (mkFile file_id fsz t plan).
Proof.
  intros Hcs Hfsz Hlen Hplaced. unfold well_planned. simpl.
  pose proof (ceil_div_bounds fsz cs Hcs) as Hn. simpl in Hn.
  split; [done |]. split; [|split].
  - apply NoDup_alt. intros i j x. rewrite !list_lookup_fmap.
    destruct (plan !! i) as [ci|] eqn:Hi; [|done].
    destruct (plan !! j) as [cj|] eqn:Hj; [|done].
    simpl. intros [= <-] [= Hsame].
    destruct (Hplaced i ci Hi) as (Hci & _).
    destruct (Hplaced j cj Hj) as (Hcj & _).
    rewrite Hci, Hcj in Hsame.
    apply (inj (String.app file_id)), (inj (String.app "_")) in Hsame.
    apply (inj pretty) in Hsame. lia.
  - intros Hneg. apply length_zero_iff_nil. nia.
  - intros Hpos.
    replace 0 with (Z.min fsz (Z.of_nat 0 * cs)) by lia.
    eapply tiles_from_ordinal; [exact Hcs | exact Hn | |].
    + rewrite Hlen. rewrite Z2Nat.id; [lia | nia].
    + intros j c Hj. simpl.
      by destruct (Hplaced j c Hj) as (_ & _ & _ & ? & ?).
Qed.

Lemma handle_well_planned rq st :
  0 < chunk_size (metadata st) →
  (∀ name f, dict_get name (files (metadata st)) = Some f → well_planned f) →
  ∀ name f, dict_get name (files (metadata (handle dumps rq st).2)) = Some f →
    well_planned f.
Proof.
  intros Hcs Hinv.
  destruct rq as [t1 t2 t3 t4 node_id node_url | t1 t2 node_id
                 | t1 t2 filename filesize | filename | | data]; simpl;
    try done.
  - by destruct (register_datanode_files dumps t1 t2 t3 t4 node_id node_url st)
      as [-> _].
  - by destruct (heartbeat_files dumps t1 t2 node_id st) as [-> _].
  - unfold create_file.
    destruct (negb (truthy_str filename) || negb (truthy_int filesize))
      eqn:Hguard; [done |].
    destruct (_ =? 0); [done |]. destruct (bool_decide _); [done |].
    destruct (for_each _ _) as [plan|e] eqn:Hplan; [|done].
    simpl. intros name f.
    destruct (decide (name = default "" filename)) as [->|Hne].
    + rewrite dict_get_set_eq. intros [= <-].
      apply plan_placed in Hplan as [Hlen Hplaced].
      eapply placed_plan_well_planned; [done | | done | done].
      apply orb_false_elim in Hguard as [_ Hsize].
      destruct filesize as [fsz|]; [|done]. simpl in *.
      apply negb_false_iff, negb_true_iff, Z.eqb_neq in Hsize. done.
    + rewrite dict_get_set_ne by done. apply Hinv.
Qed.

(** X20.  In a run of a service that starts with no file and a positive
    chunk size, every record [get_file_info] returns is well planned: its
    size is not 0, its chunk ids are pairwise distinct, its plan is empty
    when the size is negative, and when the size is positive the chunks
    are laid end to end from 0 to the size. *)
Theorem run_records_well_planned history st name f code :
  files (metadata st) = [] → 0 < chunk_size (metadata st) →
  get_file_info name (run dumps st history) = (FileInfo f, code) →
  code = 200 ∧ well_planned f.
Proof.
  intros Hfiles Hcs Hget.
  assert (∀ name f, dict_get name (files (metadata (run dumps st history)))
                    = Some f → well_planned f) as Hall.
  { assert (∀ name f, dict_get name (files (metadata st)) = Some f →
              well_planned f) as Hinit by (by rewrite Hfiles).
    clear Hfiles Hget. revert st Hcs Hinit.
    induction history as [|rq history IH]; intros st Hcs Hinit; [done |].
    simpl. apply IH.
    - by rewrite handle_chunk_size.
    - by apply handle_well_planned. }
  unfold get_file_info in Hget.
  destruct (dict_get name _) as [f'|] eqn:Hf; [|discriminate].
  injection Hget as <- <-. split; [done |]. by eapply Hall.
Qed.

End Records.
End MasterMore.

(** ** The storage node *)

Module DatanodeMore.
Import Datanode DatanodeProofs.
Local Open Scope list_scope.

Section Node.

Variable NODE_ID : string.

(** X11.  [store_chunk] always leaves the bytes under the chunk id and
    touches no other file and no read sample.  With two different clock
    readings it answers 200 with the size and the node id, and appends one
    write sample and one report; with two equal readings the throughput
    division raises [ZeroDivisionError] after the bytes are written, and
    no sample and no report is recorded. *)
Theorem store_chunk_effect t0 t1 t2 c data st :
  let r := store_chunk NODE_ID t0 t1 t2 c data st in
  data_dir r.2 = <[c := data]> (data_dir st)
  ∧ reads r.2 = reads st
  ∧ (t0 ≠ t1 →
     r.1 = Ret (Stored c (Z.of_nat (length data)) NODE_ID, 200)
     ∧ (∃ th, writes r.2
              = writes st
                ++ [mkSample c (Z.of_nat (length data))
                      (duration_ms t0 t1) th t2])
     ∧ reported r.2
       = reported st
         ++ [mkReport NODE_ID "write" (Z.of_nat (length data))
               (duration_ms t0 t1)])
  ∧ (t0 = t1 →
     r.1 = Raise ZeroDivisionError
     ∧ writes r.2 = writes st ∧ reported r.2 = reported st).
Proof.
  intros r. unfold r, store_chunk.
  split; [by destruct (throughput _ _) |].
  split; [by destruct (throughput _ _) |]. split.
  - intros Hne.
    destruct (throughput_positive_duration
                (Z.of_nat (length data)) t0 t1 Hne) as [th ->].
    simpl. eauto.
  - intros ->. by rewrite throughput_zero_duration.
Qed.

Lemma serve_metrics st rq :
  ∃ r w,
    reads (serve NODE_ID st rq) = reads st ++ r
    ∧ writes (serve NODE_ID st rq) = writes st ++ w
    ∧ length w = (if answered_put rq then 1 else 0)%nat
    ∧ (length r ≤ if answered_put rq then 0 else 1)%nat.
Proof.
  destruct rq as [t0 t1 t2 c data | t0 t1 t2 c]; simpl.
  - unfold store_chunk.
    destruct (decide (t0 = t1)) as [->|Hne].
    + rewrite throughput_zero_duration, Z.eqb_refl. simpl.
      exists [], []. rewrite !app_nil_r. simpl. repeat split; lia.
    + destruct (throughput_positive_duration
                  (Z.of_nat (length data)) t0 t1 Hne) as [th ->].
      rewrite (proj2 (Z.eqb_neq t0 t1)) by done. simpl.
      eexists [], [_]. rewrite app_nil_r. simpl. repeat split; lia.
  - unfold retrieve_chunk. destruct (data_dir st !! c) as [data|].
    + destruct (throughput _ _) as [th|e]; simpl.
      * eexists [_], []. rewrite app_nil_r. simpl. repeat split; lia.
      * exists [], []. rewrite !app_nil_r. simpl. repeat split; lia.
    + exists [], []. rewrite !app_nil_r. simpl. repeat split; lia.
Qed.

(** X12.  The metrics only grow: over any history, the samples [get_metrics]
    returned before are a prefix of those it returns after; the write
    samples added are as many as the stores answered 200, and the read
    samples added are at most as many as the retrievals. *)
Theorem metrics_append_only history st :
  ∃ r w,
    get_metrics (serve_all NODE_ID st history)
    = (reads st ++ r, writes st ++ w, 200)
    ∧ length w = length (filter (λ rq, answered_put rq = true) history)
    ∧ (length r + length w ≤ length history)%nat.
Proof.
  unfold get_metrics, serve_all. revert st.
  induction history as [|rq history IH]; intros st; simpl.
  - exists [], []. by rewrite !app_nil_r.
  - destruct (serve_metrics st rq) as (r1 & w1 & Hr1 & Hw1 & Hlw & Hlr).
    destruct (IH (serve NODE_ID st rq)) as (r & w & Hget & Hlen & Hle).
    exists (r1 ++ r), (w1 ++ w).
    rewrite Hget, Hr1, Hw1, <- !app_assoc. split; [done |].
    rewrite !length_app, filter_cons.
    destruct (answered_put rq); simpl in *; lia.
Qed.

End Node.

(** *** The reports a node posts, as the master receives them *)

Lemma duration_nonzero t0 t1 :
  t0 ≠ t1 → Qeq_bool (duration_ms t0 t1) 0 = false.
Proof.
  intros Hne. unfold duration_ms, Qeq_bool, Qdiv, Qmult, Qinv, inject_Z.
  simpl. rewrite !Z.mul_1_r. apply Z.eqb_neq. lia.
Qed.

Lemma size_nonzero (n : Z) : Qeq_bool (inject_Z n) 0 = (n =? 0).
Proof.
  unfold Qeq_bool, inject_Z. simpl. by rewrite Z.mul_1_r.
Qed.

Lemma report_recorded_unless_empty NODE_ID operation (n : nat) t0 t1 :
  NODE_ID ≠ "" → operation ≠ "" → t0 ≠ t1 →
  Master.record_stats
    (report_body (mkReport NODE_ID operation (Z.of_nat n) (duration_ms t0 t1)))
  = if decide (Z.of_nat n = 0)
    then Ret (Master.Error "Missing required fields", 400)
    else Ret (Master.Status "recorded", 200).
Proof.
  intros Hid Hop Hne. unfold Master.record_stats, report_body, json_get.
  simpl. rewrite !bool_decide_eq_false_2 by done. simpl.
  rewrite size_nonzero, (duration_nonzero t0 t1 Hne). simpl.
  destruct (decide (Z.of_nat n = 0)) as [->|Hn]; simpl; [done |].
  rewrite (proj2 (Z.eqb_neq (Z.of_nat n) 0)) by lia. simpl.
  destruct (MasterMore.throughput_of_numbers
              (JNum (inject_Z (Z.of_nat n))) (JNum (duration_ms t0 t1))
              (inject_Z (Z.of_nat n)) (duration_ms t0 t1) eq_refl eq_refl)
    as [th ->]; [|done].
  simpl. by rewrite (duration_nonzero t0 t1 Hne).
Qed.

Lemma serve_reported NODE_ID st rq :
  reported (serve NODE_ID st rq) = reported st
  ∨ ∃ operation (n : nat) t0 t1,
      operation ≠ "" ∧ t0 ≠ t1
      ∧ reported (serve NODE_ID st rq)
        = reported st
          ++ [mkReport NODE_ID operation (Z.of_nat n) (duration_ms t0 t1)].
Proof.
  destruct rq as [t0 t1 t2 c data | t0 t1 t2 c]; simpl.
  - unfold store_chunk. destruct (decide (t0 = t1)) as [->|Hne].
    + left. by rewrite throughput_zero_duration.
    + right. exists "write", (length data), t0, t1.
      destruct (throughput_positive_duration
                  (Z.of_nat (length data)) t0 t1 Hne) as [th ->].
      done.
  - unfold retrieve_chunk. destruct (data_dir st !! c) as [data|]; [|by left].
    destruct (decide (t0 = t1)) as [->|Hne].
    + left. by rewrite throughput_zero_duration.
    + right. exists "read", (length data), t0, t1.
      destruct (throughput_positive_duration
                  (Z.of_nat (length data)) t0 t1 Hne) as [th ->].
      done.
Qed.

(** X13.  Every report a node with a non-empty id posts, over any history
    of stores and retrievals, is recorded by the master's [record_stats]
    (200) when the chunk was not empty, and refused as having missing
    fields (400) when the chunk was empty, its [bytes] being 0. *)
Theorem reports_recorded_unless_empty NODE_ID history :
  NODE_ID ≠ "" →
  Forall (λ report,
            Master.record_stats (report_body report)
            = if decide (r_bytes report = 0)
              then Ret (Master.Error "Missing required fields", 400)
              else Ret (Master.Status "recorded", 200))
    (reported (serve_all NODE_ID fresh history)).
Proof.
  intros Hid. unfold serve_all.
  assert (Forall (λ report,
                    Master.record_stats (report_body report)
                    = if decide (r_bytes report = 0)
                      then Ret (Master.Error "Missing required fields", 400)
                      else Ret (Master.Status "recorded", 200))
            (reported fresh)) as Hinit by constructor.
  revert Hinit. generalize fresh.
  induction history as [|rq history IH]; intros st Hst; [done |].
  simpl. apply IH.
  destruct (serve_reported NODE_ID st rq)
    as [-> | (operation & n & t0 & t1 & Hop & Hne & ->)]; [done |].
  apply Forall_app. split; [done |]. constructor; [|constructor].
  by apply report_recorded_unless_empty.
Qed.

End DatanodeMore.

(** ** The client *)

Module ClientMore.
Import Master Client MasterProofs ClientProofs.
Local Open Scope list_scope.

(** *** Splitting a file along a plan *)

Lemma tiles_le lo hi plan : tiles lo hi plan → lo ≤ hi.
Proof.
  revert lo. induction plan as [|c plan IH]; intros lo; simpl.
  - lia.
  - intros (_ & Hsize & Hrest). apply IH in Hrest. lia.
Qed.

Lemma read_at_inside (file : bytes) start size :
  0 ≤ start → 0 ≤ size →
  read_at file start size
  = Some (take (Z.to_nat size) (drop (Z.to_nat start) file)).
Proof.
  intros Hstart Hsize. unfold read_at.
  rewrite (proj2 (Z.ltb_ge start 0)), (proj2 (Z.ltb_ge size 0)) by lia.
  done.
Qed.

Lemma split_file_from (file : bytes) lo plan :
  0 ≤ lo → tiles lo (Z.of_nat (length file)) plan →
  ∃ pieces,
    split_file file plan = Some pieces
    ∧ Forall2 (λ c p, p_chunk_id p = chunk_id c ∧ p_node_url p = node_url c
                      ∧ Z.of_nat (length (p_data p)) = size c
                      ∧ p_data p
                        = take (Z.to_nat (size c))
                            (drop (Z.to_nat (start c)) file))
        plan pieces
    ∧ concat (p_data <$> pieces) = drop (Z.to_nat lo) file.
Proof.
  intros Hlo. revert lo Hlo.
  induction plan as [|c plan IH]; intros lo Hlo Htiles; simpl in Htiles.
  - exists []. split; [done |]. split; [constructor |]. simpl.
    symmetry. apply drop_ge. lia.
  - destruct Htiles as (Hstart & Hsize & Hrest).
    pose proof (tiles_le _ _ _ Hrest) as Hle.
    destruct (IH (lo + size c)) as (pieces & Hsplit & Hall & Hconcat);
      [lia | done |].
    exists (mkPiece (chunk_id c) (node_url c)
              (take (Z.to_nat (size c)) (drop (Z.to_nat lo) file)) :: pieces).
    split; [|split].
    + unfold split_file in *. cbn [mapM].
      rewrite Hstart, read_at_inside by lia. simpl.
      by rewrite Hsplit.
    + constructor; [|done]. simpl. rewrite Hstart.
      repeat split. rewrite length_take_le; [lia |].
      rewrite length_drop. lia.
    + rewrite fmap_cons, concat_cons, Hconcat. simpl.
      replace (Z.to_nat (lo + size c))
        with (Z.to_nat lo + Z.to_nat (size c))%nat by lia.
      rewrite <- drop_drop. apply take_drop.
Qed.

(** X14.  For a plan whose ranges are laid end to end from 0 to the length
    of the local file, [split_file] reads one piece per chunk, each of the
    chunk's [size], under the chunk's id and address, and the pieces
    concatenated in plan order are the file. *)
Theorem split_file_pieces_join (file : bytes) plan :
  tiles 0 (Z.of_nat (length file)) plan →
  ∃ pieces,
    split_file file plan = Some pieces
    ∧ Forall2 (λ c p, p_chunk_id p = chunk_id c ∧ p_node_url p = node_url c
                      ∧ Z.of_nat (length (p_data p)) = size c)
        plan pieces
    ∧ concat (p_data <$> pieces) = file.
Proof.
  intros Htiles.
  destruct (split_file_from file 0 plan ltac:(lia) Htiles)
    as (pieces & Hsplit & Hall & Hconcat).
  exists pieces. split; [done |]. split; [|done].
  eapply Forall2_impl; [exact Hall |]. simpl. intros c p (? & ? & ? & _).
  done.
Qed.

(** *** Download with failed retrievals *)

Lemma omap_id_fmap {A B} (f : A → option B) (l : list A) :
  omap id (f <$> l) = omap f l.
Proof.
  induction l as [|x l IH]; [done |].
  rewrite fmap_cons. cbn [omap list_omap]. rewrite IH.
  by destruct (f x).
Qed.

Lemma omap_length_le {A B} (f : A → option B) (l : list A) :
  (length (omap f l) ≤ length l)%nat.
Proof.
  induction l as [|x l IH]; [done |].
  cbn [omap list_omap]. destruct (f x); simpl; lia.
Qed.

Lemma omap_length_all {A B} (f : A → option B) (l : list A) :
  length (omap f l) = length l ↔ Forall (λ x, is_Some (f x)) l.
Proof.
  induction l as [|x l IH]; [done |].
  cbn [omap list_omap]. pose proof (omap_length_le f l) as Hle.
  destruct (f x) as [y|] eqn:Hfx; simpl.
  - rewrite Forall_cons, <- IH. split; [intros [= ->] | intros [_ ->]]; eauto.
  - split; [lia |]. intros Hall. apply Forall_cons in Hall as [[? ?] _].
    congruence.
Qed.

(** X15.  Whatever the answers of the nodes, once every retrieval has
    completed [download] writes the output file: it holds the data of the
    chunks that were retrieved, in plan order, the failed ones being left
    out, and the warning is printed exactly when some retrieval failed.
    When the master does not answer 200 with the file, nothing is
    written. *)
Theorem download_leaves_out_failed_chunks (net : Network) info completion :
  completion ≡ₚ seq 0 (length (chunks info)) →
  let got := omap (download_chunk net) (chunks info) in
  (∃ warned,
     download net (FileInfo info, 200) completion
     = Some (Written warned (concat (d_data <$> got)))
     ∧ (warned = false
        ↔ Forall (λ c, is_Some (download_chunk net c)) (chunks info)))
  ∧ (∀ message code,
       download net (Master.Error message, code) completion = Some NotWritten).
Proof.
  intros Hcompletion got. split; [|done].
  unfold download.
  rewrite executor_map_in_task_order; simpl.
  - rewrite omap_id_fmap. fold got. eexists. split; [done |].
    rewrite negb_false_iff, bool_decide_eq_true.
    apply omap_length_all.
  - intros i Hi. rewrite Hcompletion. apply elem_of_seq. lia.
Qed.

(** *** The distribution [info] prints *)

Lemma count_chunk_lookup (d : dict Z) c n :
  dict_get n (count_chunk d c)
  = if decide (node_id c = n) then Some (default 0 (dict_get n d) + 1)
    else dict_get n d.
Proof.
  unfold count_chunk. destruct (decide (node_id c = n)) as [<-|Hne].
  - rewrite dict_get_set_eq. f_equal. f_equal.
    destruct (dict_in (node_id c) d) eqn:Hin; [done |].
    rewrite dict_get_set_eq.
    apply not_true_iff_false in Hin. rewrite dict_in_true in Hin.
    destruct (dict_get (node_id c) d); [|done]. destruct Hin. eauto.
  - rewrite dict_get_set_ne by done.
    destruct (dict_in (node_id c) d); [done |].
    by rewrite dict_get_set_ne.
Qed.

(** X16.  The distribution [info] builds has an entry for a node exactly
    when the plan assigns it at least one chunk, and the entry is the
    number of chunks of the plan assigned to that node. *)
Theorem node_distribution_counts plan n :
  dict_get n (node_distribution plan)
  = if decide (assigned n plan = 0)%nat then None
    else Some (Z.of_nat (assigned n plan)).
Proof.
  unfold node_distribution.
  induction plan as [|c plan IH] using rev_ind; [done |].
  rewrite foldl_snoc, count_chunk_lookup, IH, assigned_snoc.
  destruct (decide (node_id c = n)) as [Hc|Hc].
  - rewrite (decide_False (P := (assigned n plan + 1 = 0)%nat)) by lia.
    destruct (decide (assigned n plan = 0)%nat) as [->|Hpos]; simpl;
      f_equal; lia.
  - by rewrite Nat.add_0_r.
Qed.

End ClientMore.

(** ** The parts together *)

Module ClusterMore.
Import Master Client Cluster MasterProofs ClientProofs ClientMore.
Local Open Scope list_scope.

Section Registration.

Variable dumps : Metadata → string.
Variable int : string → option Z.

(** X17.  The address a datanode registers is fixed by its [NODE_ID]:
    port 8000 plus [int(NODE_ID)].  When [int] refuses the id the module
    does not load and nothing is registered.  Otherwise, for a non-empty
    id, a [POST] that reaches the master always succeeds: if the master
    does not know the id, the node enters the registry under that address
    with the first two clock readings; if it knows it, the master's state
    is left as it was.  If the master cannot be reached, the registration
    fails and the master is unchanged. *)
Theorem register_with_master_succeeds t1 t2 t3 t4 NODE_ID m :
  NODE_ID ≠ "" →
  match int NODE_ID with
  | None =>
      ∀ master_up,
        register_with_master dumps int t1 t2 t3 t4 NODE_ID master_up m = None
  | Some k =>
      let node_url :=
        "http://datanode" +:+ NODE_ID +:+ ":" +:+ pretty (8000 + k) in
      NODE_URL int NODE_ID = Some node_url
      ∧ (∃ m',
           register_with_master dumps int t1 t2 t3 t4 NODE_ID true m
           = Some (true, m')
           ∧ (dict_get NODE_ID (datanodes m) = None →
              dict_get NODE_ID (datanodes m')
              = Some (Master.mkNode node_url t1 t2)
              ∧ dict_keys (datanodes m')
                = dict_keys (datanodes m) ++ [NODE_ID])
           ∧ (is_Some (dict_get NODE_ID (datanodes m)) → m' = m))
      ∧ register_with_master dumps int t1 t2 t3 t4 NODE_ID false m
        = Some (false, m)
  end.
Proof.
  intros Hid. unfold register_with_master, NODE_URL, HOST_PORT.
  destruct (int NODE_ID) as [k|]; simpl; [|done].
  set (node_url := "http://datanode" +:+ NODE_ID +:+ ":" +:+ pretty (8000 + k)).
  assert (node_url ≠ "") as Hurl by done.
  split; [done |]. split; [|done].
  destruct (dict_get NODE_ID (datanodes m)) as [n|] eqn:Hn.
  - exists m. unfold register_datanode.
    rewrite (is_node_registred_known NODE_ID (datanodes m)) by eauto.
    simpl. split; [done |]. split; [done | done].
  - rewrite (register_new_node dumps) by done. simpl.
    eexists. split; [done |]. split; [|by intros [? ?]].
    intros _. simpl. split; [apply dict_get_set_eq |].
    rewrite dict_keys_set. rewrite decide_False; [done |].
    rewrite dict_get_keys, Hn. by intros [? ?].
Qed.

End Registration.

(** *** What an upload stores *)






Section Pool.

Variables (clock : nat → Time * Time * Time) (pieces : list Piece).

Hypothesis distinct_ids : ∀ i j pi pj,
  pieces !! i = Some pi → pieces !! j = Some pj →
  p_chunk_id pi = p_chunk_id pj → i = j.



End Pool.


(** *** Upload, then download *)





Section RoundTrip.

Variable dumps : Metadata → string.
Variable routed : string → option string.


(** X19.  [upload] of an empty file is refused: the master answers 400
    to [filesize = 0], nothing is planned and nothing is sent to any node,
    and the cluster is left as it was.  The same holds, with 503, for a
    non-empty file when no node is registered. *)
Theorem upload_refused t1 t2 clock completion name (file : bytes) cl :
  (file = [] →
   upload dumps t1 t2 clock completion name file cl
   = (Some (Refused 400), cl))
  ∧ (file ≠ [] → name ≠ "" → chunk_size (metadata (master cl)) ≠ 0 →
     datanodes (master cl) = [] →
     upload dumps t1 t2 clock completion name file cl
     = (Some (Refused 503), cl)).
Proof.
  destruct cl as [m ns]. split.
  - intros ->. unfold upload. simpl.
    unfold create_file. simpl. by rewrite orb_true_r.
  - intros Hfile Hname Hcs Hnone. unfold upload. simpl in *.
    destruct (create_file_empty_registry dumps t1 t2 (Some name)
                (Some (Z.of_nat (length file))) m Hnone) as [Hst Hresp].
    destruct (create_file _ _ _ _ _ _) as [response m']. simpl in *.
    subst m'. rewrite Hresp; [done | | | done].
    + simpl. by rewrite bool_decide_eq_false_2.
    + simpl. destruct file; [done |]. simpl. by destruct (length file).
Qed.

End RoundTrip.
End ClusterMore.

(** ** The further properties on the concrete service *)

Module MoreScenarios.
Import Master Client.
Local Open Scope list_scope.

Local Ltac compute_eq := vm_compute; reflexivity.


Lemma register_appends_node_witness :
  "C" ≠ "" ∧ "http://c:8003" ≠ ""
  ∧ dict_get "C" (datanodes Fixture.two_nodes) = None
  ∧ dict_keys
      (datanodes
         (register_datanode Fixture.dumps 1730000040000001 1730000040000002
            1730000040000003 1730000040000004 (Some "C")
            (Some "http://c:8003") Fixture.two_nodes).2)
    = ["A"; "B"; "C"].
Proof.
  split; [done |]. split; [done |].
  assert (dict_get "C" (datanodes Fixture.two_nodes) = None) as Hnew
    by compute_eq.
  split; [exact Hnew |].
  destruct (MasterMore.register_appends_node Fixture.dumps
              1730000040000001 1730000040000002 1730000040000003
              1730000040000004 "C" "http://c:8003" Fixture.two_nodes
              ltac:(done) ltac:(done) Hnew) as (_ & Hkeys & _).
  exact Hkeys.
Defined.

Lemma heartbeat_updates_last_heartbeat_witness :
  "A" ≠ ""
  ∧ dict_get "A" (datanodes Fixture.two_nodes)
    = Some (mkNode "http://a:8001" 1730000000000001 1730000000000002)
  ∧ dict_get "A" (md_datanodes (metadata Fixture.two_nodes))
    = Some (mkNode "http://a:8001" 1730000000000003 1730000000000004)
  ∧ dict_get "A"
      (datanodes
         (heartbeat Fixture.dumps 1730000050000001 1730000050000002
            (Some "A") Fixture.two_nodes).2)
    = Some (mkNode "http://a:8001" 1730000000000001 1730000050000001).
Proof.
  assert (dict_get "A" (datanodes Fixture.two_nodes)
          = Some (mkNode "http://a:8001" 1730000000000001 1730000000000002))
    as Hn by compute_eq.
  assert (dict_get "A" (md_datanodes (metadata Fixture.two_nodes))
          = Some (mkNode "http://a:8001" 1730000000000003 1730000000000004))
    as Hm by compute_eq.
  split; [done |]. split; [exact Hn |]. split; [exact Hm |].
  destruct (MasterMore.heartbeat_updates_last_heartbeat Fixture.dumps
              1730000050000001 1730000050000002 "A" Fixture.two_nodes
              _ _ ltac:(done) Hn Hm) as (_ & Hbeat & _).
  exact Hbeat.
Defined.

Lemma run_keeps_nodes_and_files_witness :
  dict_get "A" (datanodes Fixture.two_nodes)
  = Some (mkNode "http://a:8001" 1730000000000001 1730000000000002)
  ∧ ∃ n',
      dict_get "A"
        (datanodes
           (run Fixture.dumps Fixture.two_nodes
              [PostRegister 1 2 3 4 (Some "A") (Some "http://elsewhere:9");
               PostHeartbeat 5 6 (Some "A")])) = Some n'
      ∧ url n' = "http://a:8001" ∧ registered_at n' = 1730000000000001.
Proof.
  assert (dict_get "A" (datanodes Fixture.two_nodes)
          = Some (mkNode "http://a:8001" 1730000000000001 1730000000000002))
    as Hn by compute_eq.
  split; [exact Hn |].
  destruct (MasterMore.run_keeps_nodes_and_files Fixture.dumps
              [PostRegister 1 2 3 4 (Some "A") (Some "http://elsewhere:9");
               PostHeartbeat 5 6 (Some "A")] Fixture.two_nodes)
    as (Hnodes & _).
  exact (Hnodes "A" _ Hn).
Defined.

Lemma record_stats_type_error_witness :
  truthy (json_get "node_id" Fixture.text_bytes_report) = true
  ∧ truthy (json_get "operation" Fixture.text_bytes_report) = true
  ∧ truthy (json_get "bytes" Fixture.text_bytes_report) = true
  ∧ truthy (json_get "duration_ms" Fixture.text_bytes_report) = true
  ∧ json_get "bytes" Fixture.text_bytes_report = JStr "many"
  ∧ record_stats Fixture.text_bytes_report = Raise TypeError.
Proof.
  split; [done |]. split; [done |]. split; [done |]. split; [done |].
  split; [done |].
  apply (MasterMore.record_stats_type_error
           Fixture.text_bytes_report eq_refl eq_refl eq_refl eq_refl);
    discriminate.
Defined.

Lemma run_raises_no_lookup_error_witness :
  registry_in_metadata Fixture.empty_service
  ∧ (∀ data, PostHeartbeat 5 6 (Some "A") ≠ PostStats data)
  ∧ registry_in_metadata
      (run Fixture.dumps Fixture.empty_service Fixture.upload)
  ∧ (handle Fixture.dumps (PostHeartbeat 5 6 (Some "A"))
       (run Fixture.dumps Fixture.empty_service Fixture.upload)).1
    ≠ Raise KeyError.
Proof.
  assert (registry_in_metadata Fixture.empty_service) as Hinit
    by (intros id n Hn; discriminate Hn).
  assert (∀ data, PostHeartbeat 5 6 (Some "A") ≠ PostStats data) as Hrq
    by discriminate.
  split; [exact Hinit |]. split; [exact Hrq |].
  destruct (MasterMore.run_raises_no_lookup_error Fixture.dumps Fixture.upload
              Fixture.empty_service (PostHeartbeat 5 6 (Some "A")) KeyError
              Hinit Hrq) as [Hrun Hraise].
  split; [exact Hrun |].
  intros Hkey. by destruct (Hraise Hkey) as [? _].
Defined.

Lemma run_snapshot_in_sync_witness :
  snapshot_in_sync Fixture.dumps Fixture.two_nodes
  ∧ snapshot_in_sync Fixture.dumps
      (run Fixture.dumps Fixture.two_nodes
         [PostFile 1730000000123456 1730000000123999 (Some "f") (Some 10000)]).
Proof.
  assert (snapshot_in_sync Fixture.dumps Fixture.two_nodes) as Hsync
    by compute_eq.
  split; [exact Hsync |].
  by apply MasterMore.run_snapshot_in_sync.
Defined.

Lemma create_file_then_get_file_info_witness :
  create_file Fixture.dumps 1730000000123456 1730000000123999
    (Some "f") (Some 10000) Fixture.two_nodes
  = (Ret (Created "1730000000123" Fixture.plan_of_f 4096, 200),
     run Fixture.dumps Fixture.empty_service Fixture.upload)
  ∧ ∃ name fsz,
      Some "f" = Some name ∧ Some 10000 = Some fsz
      ∧ get_file_info name
          (run Fixture.dumps Fixture.empty_service Fixture.upload)
        = (FileInfo (mkFile "1730000000123" fsz 1730000000123999
                       Fixture.plan_of_f), 200).
Proof.
  split; [exact Scenarios.upload_plan |].
  destruct (MasterMore.create_file_then_get_file_info Fixture.dumps
              _ _ _ _ _ _ _ _ _ Scenarios.upload_plan)
    as (name & fsz & listing & Hname & Hfsz & Hget & _).
  by exists name, fsz.
Defined.

Lemma create_file_plan_consistent_witness :
  create_file Fixture.dumps 1730000000123456 1730000000123999
    (Some "f") (Some 10000) Fixture.two_nodes
  = (Ret (Created "1730000000123" Fixture.plan_of_f 4096, 200),
     run Fixture.dumps Fixture.empty_service Fixture.upload)
  ∧ NoDup (chunk_id <$> Fixture.plan_of_f).
Proof.
  split; [exact Scenarios.upload_plan |].
  apply (MasterMore.create_file_plan_consistent Fixture.dumps
           _ _ _ _ _ _ _ _ _ Scenarios.upload_plan).
Defined.

Lemma create_file_negative_size_witness :
  "neg" ≠ "" ∧ -5 ≠ 0 ∧ 0 < chunk_size (metadata Fixture.two_nodes)
  ∧ datanodes Fixture.two_nodes ≠ []
  ∧ ∃ plan,
      create_file Fixture.dumps 1730000000123456 1730000000123999
        (Some "neg") (Some (-5)) Fixture.two_nodes
      = (Ret (Created (pretty (millis 1730000000123456)) plan
                (chunk_size (metadata Fixture.two_nodes)), 200),
         committed Fixture.dumps 1730000000123456 1730000000123999
           "neg" (-5) plan Fixture.two_nodes)
      ∧ plan = [].
Proof.
  assert (0 < chunk_size (metadata Fixture.two_nodes)) as Hcs by reflexivity.
  assert (datanodes Fixture.two_nodes ≠ []) as Hnodes by (by vm_compute).
  split; [done |]. split; [done |]. split; [exact Hcs |].
  split; [exact Hnodes |].
  destruct (MasterMore.create_file_negative_size Fixture.dumps
              1730000000123456 1730000000123999 "neg" (-5) Fixture.two_nodes
              ltac:(done) ltac:(done) Hcs Hnodes)
    as (plan & Hcreate & _ & Hempty).
  exists plan. split; [exact Hcreate |]. apply Hempty. lia.
Defined.

Lemma chunk_ids_across_files_witness :
  let second :=
    create_file Fixture.dumps 1730000000123999 1730000000124000
      (Some "g") (Some 5000) Fixture.two_nodes in
  second
  = (Ret (Created "1730000000123"
            [mkChunk "1730000000123_0" "A" "http://a:8001" 0 4096;
             mkChunk "1730000000123_1" "B" "http://b:8002" 4096 904]
            4096, 200), second.2)
  ∧ millis 1730000000123456 = millis 1730000000123999
  ∧ ∀ k ca cb,
      Fixture.plan_of_f !! k = Some ca →
      [mkChunk "1730000000123_0" "A" "http://a:8001" 0 4096;
       mkChunk "1730000000123_1" "B" "http://b:8002" 4096 904] !! k
      = Some cb →
      chunk_id ca = chunk_id cb.
Proof.
  intros second.
  assert (second
          = (Ret (Created "1730000000123"
                    [mkChunk "1730000000123_0" "A" "http://a:8001" 0 4096;
                     mkChunk "1730000000123_1" "B" "http://b:8002" 4096 904]
                    4096, 200), second.2)) as Hsecond by compute_eq.
  split; [exact Hsecond |]. split; [reflexivity |].
  apply (MasterMore.chunk_ids_across_files Fixture.dumps
           _ _ _ _ _ _ _ _ _ _ _ _ _ _ _ _ _ _
           Scenarios.upload_plan Hsecond).
  reflexivity.
Defined.

Lemma store_chunk_effect_witness :
  10 ≠ 20
  ∧ (Datanode.store_chunk "1" 10 20 30 "c1" [Byte.x41; Byte.x42]
       Datanode.fresh).1
    = Ret (Datanode.Stored "c1" 2 "1", 200).
Proof.
  split; [lia |].
  destruct (DatanodeMore.store_chunk_effect "1" 10 20 30 "c1"
              [Byte.x41; Byte.x42] Datanode.fresh)
    as (_ & _ & Hok & _).
  destruct (Hok ltac:(lia)) as (Hresponse & _). exact Hresponse.
Defined.

Lemma reports_recorded_unless_empty_witness :
  "1" ≠ ""
  ∧ Forall (λ report,
              record_stats (Datanode.report_body report)
              = if decide (Datanode.r_bytes report = 0)
                then Ret (Error "Missing required fields", 400)
                else Ret (Status "recorded", 200))
      (Datanode.reported
         (Datanode.serve_all "1" Datanode.fresh Fixture.node_history)).
Proof.
  split; [done |].
  by apply (DatanodeMore.reports_recorded_unless_empty
              "1" Fixture.node_history).
Defined.

Lemma split_file_pieces_join_witness :
  tiles 0 (Z.of_nat (length Fixture.local_file))
    [mkChunk "7_0" "A" "http://a:8001" 0 4;
     mkChunk "7_1" "B" "http://b:8002" 4 4;
     mkChunk "7_2" "A" "http://a:8001" 8 2]
  ∧ ∃ pieces,
      split_file Fixture.local_file
        [mkChunk "7_0" "A" "http://a:8001" 0 4;
         mkChunk "7_1" "B" "http://b:8002" 4 4;
         mkChunk "7_2" "A" "http://a:8001" 8 2] = Some pieces
      ∧ concat (p_data <$> pieces) = Fixture.local_file.
Proof.
  assert (tiles 0 (Z.of_nat (length Fixture.local_file))
            [mkChunk "7_0" "A" "http://a:8001" 0 4;
             mkChunk "7_1" "B" "http://b:8002" 4 4;
             mkChunk "7_2" "A" "http://a:8001" 8 2]) as Htiles.
  { simpl. repeat split; lia. }
  split; [exact Htiles |].
  destruct (ClientMore.split_file_pieces_join Fixture.local_file _ Htiles)
    as (pieces & Hsplit & _ & Hjoin).
  by exists pieces.
Defined.

Lemma download_leaves_out_failed_chunks_witness :
  [1; 0]%nat ≡ₚ seq 0 2
  ∧ ∃ warned,
      download Fixture.network
        (FileInfo (mkFile "9" 8192 0
                     [mkChunk "1730000000123_1" "B" "http://b:8002" 0 4096;
                      mkChunk "missing" "A" "http://a:8001" 4096 4096]),
         200) [1; 0]%nat
      = Some (Written warned [Byte.x02]).
Proof.
  assert ([1; 0]%nat ≡ₚ seq 0 2) as Hperm by apply Permutation_swap.
  split; [exact Hperm |].
  destruct (ClientMore.download_leaves_out_failed_chunks Fixture.network
              (mkFile "9" 8192 0
                 [mkChunk "1730000000123_1" "B" "http://b:8002" 0 4096;
                  mkChunk "missing" "A" "http://a:8001" 4096 4096])
              [1; 0]%nat Hperm) as [(warned & Hdownload & _) _].
  by exists warned.
Defined.

Lemma register_with_master_succeeds_witness :
  "3" ≠ ""
  ∧ Fixture.int "3" = Some 3
  ∧ dict_get "3" (datanodes Fixture.two_nodes) = None
  ∧ ∃ m',
      Cluster.register_with_master Fixture.dumps Fixture.int 1 2 3 4 "3" true
        Fixture.two_nodes = Some (true, m')
      ∧ dict_get "3" (datanodes m')
        = Some (mkNode "http://datanode3:8003" 1 2)
      ∧ dict_keys (datanodes m') = ["A"; "B"; "3"].
Proof.
  assert (dict_get "3" (datanodes Fixture.two_nodes) = None) as Hnew
    by compute_eq.
  split; [done |]. split; [reflexivity |]. split; [exact Hnew |].
  pose proof (ClusterMore.register_with_master_succeeds Fixture.dumps
                Fixture.int 1 2 3 4 "3" Fixture.two_nodes ltac:(done))
    as Hregister.
  change (Fixture.int "3") with (Some 3) in Hregister.
  destruct Hregister as (_ & (m' & Hm' & Hunknown & _) & _).
  destruct (Hunknown Hnew) as [Hnode Hkeys].
  exists m'. split; [exact Hm' |]. split; [exact Hnode |].
  rewrite Hkeys. compute_eq.
Defined.


Lemma upload_refused_witness :
  Cluster.upload Fixture.dumps 1730000000123456 1730000000123999
    Fixture.store_clock [] "empty" [] Fixture.small_cluster
  = (Some (Cluster.Refused 400), Fixture.small_cluster).
Proof.
  by apply (ClusterMore.upload_refused Fixture.dumps).
Defined.

Lemma run_records_well_planned_witness :
  files (metadata Fixture.empty_service) = []
  ∧ 0 < chunk_size (metadata Fixture.empty_service)
  ∧ get_file_info "f" (run Fixture.dumps Fixture.empty_service Fixture.upload)
    = (FileInfo Fixture.record_of_f, 200)
  ∧ well_planned Fixture.record_of_f.
Proof.
  assert (get_file_info "f"
            (run Fixture.dumps Fixture.empty_service Fixture.upload)
          = (FileInfo Fixture.record_of_f, 200)) as Hget by compute_eq.
  split; [reflexivity |]. split; [reflexivity |]. split; [exact Hget |].
  apply (MasterMore.run_records_well_planned Fixture.dumps Fixture.upload
           Fixture.empty_service "f" Fixture.record_of_f 200
           eq_refl eq_refl Hget).
Defined.

End MoreScenarios.
